(** * commonmeta-go: the CSL converter (package [csl])

    A shallow embedding of [Read], [Convert], [Write] and [WriteList] of the
    [csl] package and of the two commands of the package [cmd], with the Go
    values they handle:

    - a Go [string] is a sequence of bytes: [string] of the Standard Library;
    - a Go slice is [nil] or a sequence: [slice A], with [None] standing for
      [nil], where the difference can be observed (returned byte slices, error
      lists, JSON encoding); a plain [list] where the code only takes [len]
      and ranges over it;
    - a Go [map[string]V] literal that is only read is an association list,
      a missing key reading as the zero value;
    - Go's [int] is [Z];
    - a function that may panic or print returns an [outcome]. *)

From Stdlib Require Import String Ascii List ZArith Bool Lia.
From Stdlib Require Import DecimalString.
Import ListNotations.

Local Open Scope list_scope.
Local Open Scope string_scope.

Set Implicit Arguments.
Set Warnings "-register-all".

(** ** What a Go call does besides returning

    The lines written to standard output ([fmt.Println]) and the value
    returned, or a run-time panic. *)

Inductive outcome (A : Type) : Type :=
| Returns (stdout : list string) (a : A)
| Panics (msg : string).

Arguments Returns {A} stdout a.
Arguments Panics {A} msg.

Definition ret {A} (a : A) : outcome A := Returns [] a.

Definition bind {A B} (c : outcome A) (k : A -> outcome B) : outcome B :=
  match c with
  | Returns out a =>
      match k a with
      | Returns out' b => Returns (out ++ out')%list b
      | Panics msg => Panics msg
      end
  | Panics msg => Panics msg
  end.

Notation "x <- c ;; k" := (bind c (fun x => k))
  (at level 61, c at next level, right associativity).
Notation "c ;;; k" := (bind c (fun _ => k))
  (at level 61, right associativity).

(** [fmt.Println(err)] *)
Definition Println (s : string) : outcome unit := Returns [s] tt.

(** Go's [error]: [nil] or a message. *)
Definition error : Type := option string.

(** A slice that may be [nil]. *)
Definition slice (A : Type) : Type := option (list A).

Definition len {A} (s : slice A) : nat :=
  match s with None => 0 | Some l => length l end.

(** [append(s, x)]: never [nil]. *)
Definition append {A} (s : slice A) (x : A) : slice A :=
  match s with None => Some [x] | Some l => Some (l ++ [x])%list end.

Definition elems {A} (s : slice A) : list A :=
  match s with None => [] | Some l => l end.

(** [s[i]]: panics out of range. *)
Definition index {A} (s : list A) (i : nat) : outcome A :=
  match nth_error s i with
  | Some x => ret x
  | None => Panics "index out of range"
  end.

(** [for _, x := range l { body }] over a state [S]. *)
Definition range {A S} (l : list A) (body : S -> A -> S) (s : S) : S :=
  fold_left body l s.

(** [slices.Contains] on strings. *)
Definition Contains (s : list string) (v : string) : bool :=
  existsb (fun x => x =? v) s.

(** [m[k]] of a [map[string]string] literal: [""] for a missing key. *)
Fixpoint lookup (m : list (string * string)) (k : string) : string :=
  match m with
  | [] => ""
  | (k', v) :: m' => if k' =? k then v else lookup m' k
  end.

(** [map[string][][]int]: [nil] or its entries. *)
Definition dateparts : Type := option (list (string * slice (slice Z))).

(** ** Package [commonmeta]: the canonical record

    The fields of [commonmeta.Data] that the [csl] package reads.  The
    declaration itself is outside the files at hand; field names are those the
    converter uses, and the container's page fields are the start and end page
    that [Pages] renders. *)

Module Contributor.
Record t : Type := mk
  { ContributorRoles : list string;
    FamilyName : string;
    GivenName : string;
    Name : string }.
End Contributor.

Module Subject.
Record t : Type := mk { Subject : string }.
End Subject.

Module Title.
Record t : Type := mk { Title : string }.
End Title.

Module Description.
Record t : Type := mk { Description : string }.
End Description.

Module Container.
Record t : Type := mk
  { Title : string;
    Issue : string;
    Volume : string;
    FirstPage : string;
    LastPage : string }.
Definition zero : t := mk "" "" "" "" "".
End Container.

Module Date.
Record t : Type := mk
  { Published : string;
    Submitted : string;
    Accessed : string }.
Definition zero : t := mk "" "" "".
End Date.

Module Publisher.
Record t : Type := mk { Name : string }.
Definition zero : t := mk "".
End Publisher.

Module Data.
Record t : Type := mk
  { ID : string;
    Type_ : string;
    Container : Container.t;
    Contributors : list Contributor.t;
    Date : Date.t;
    Descriptions : list Description.t;
    Language : string;
    Publisher : Publisher.t;
    Subjects : list Subject.t;
    Titles : list Title.t;
    URL : string;
    Version : string }.

(** [var data commonmeta.Data] *)
Definition zero : t :=
  mk "" "" Container.zero [] Date.zero [] "" Publisher.zero [] [] "" "".
End Data.

(** ** Package [csl]: the records *)

Module content.
Record t : Type := mk { ID : string; Title : string }.
End content.

Module Author.
Record t : Type := mk
  { Given : string;
    Family : string;
    Literal : string }.
(** [var author Author] *)
Definition zero : t := mk "" "" "".
End Author.

Module CSL.
Record t : Type := mk
  { ID : string;
    Type_ : string;
    Abstract : string;
    Accessed : dateparts;
    Author : slice Author.t;
    ContainerTitle : string;
    DOI : string;
    ISSN : string;
    Issue : string;
    Issued : dateparts;
    Keyword : string;
    Language : string;
    License : string;
    Page : string;
    Publisher : string;
    Submitted : dateparts;
    Title : string;
    URL : string;
    Version : string;
    Volume : string }.
End CSL.

(** ** Package [encoding/json], for the values of a [CSL]

    [json.Marshal] as it encodes the types at hand: strings, [int]s, slices,
    a map with string keys, and structs whose fields carry a [json] tag.  A
    value is first laid out ([value]: which members an object has, after
    [omitempty]) and then written out ([render]).  None of these types has a
    case in which the encoder reports an error. *)

Module json.

Definition dquote : string := String (ascii_of_nat 34) EmptyString.

(** [const hex = "0123456789abcdef"], indexed. *)
Definition hex (n : N) : string :=
  match get (N.to_nat n) "0123456789abcdef" with
  | Some c => String c EmptyString
  | None => EmptyString
  end.

(** *** [unicode/utf8]: [DecodeRuneInString] *)

Definition RuneError : N := 0xFFFD.

(** The table [first]: [0xF0] an ASCII byte, [0xF1] an invalid one, else
    the accept range in the high and the size in the low four bits. *)
Definition first (b : N) : N :=
  (if b <? 0x80 then 0xF0
  else if b <? 0xC2 then 0xF1
  else if b <? 0xE0 then 0x02
  else if b =? 0xE0 then 0x13
  else if b <? 0xED then 0x03
  else if b =? 0xED then 0x23
  else if b <? 0xF0 then 0x03
  else if b =? 0xF0 then 0x34
  else if b <? 0xF4 then 0x04
  else if b =? 0xF4 then 0x44
  else 0xF1)%N.

Definition acceptRanges (i : N) : N * N :=
  match i with
  | 0 => (0x80, 0xBF)
  | 1 => (0xA0, 0xBF)
  | 2 => (0x80, 0x9F)
  | 3 => (0x90, 0xBF)
  | 4 => (0x80, 0x8F)
  | _ => (0, 0)
  end%N.

Definition DecodeRune (s : list N) : N * nat :=
  match s with
  | [] => (RuneError, 0%nat)
  | s0 :: t0 =>
      let x := first s0 in
      if (0xF0 <=? x) then ((if x =? 0xF0 then s0 else RuneError), 1%nat)
      else
        let sz := N.land x 7 in
        let '(lo, hi) := acceptRanges (N.shiftr x 4) in
        if N.of_nat (length s) <? sz then (RuneError, 1%nat)
        else
          match t0 with
          | [] => (RuneError, 1%nat)
          | s1 :: t1 =>
              if (s1 <? lo) || (hi <? s1) then (RuneError, 1%nat)
              else if sz <=? 2 then
                (N.lor (N.shiftl (N.land s0 0x1F) 6) (N.land s1 0x3F), 2%nat)
              else
                match t1 with
                | [] => (RuneError, 1%nat)
                | s2 :: t2 =>
                    if (s2 <? 0x80) || (0xBF <? s2) then (RuneError, 1%nat)
                    else if sz <=? 3 then
                      (N.lor (N.lor (N.shiftl (N.land s0 0x0F) 12)
                                    (N.shiftl (N.land s1 0x3F) 6))
                             (N.land s2 0x3F), 3%nat)
                    else
                      match t2 with
                      | [] => (RuneError, 1%nat)
                      | s3 :: _ =>
                          if (s3 <? 0x80) || (0xBF <? s3)
                          then (RuneError, 1%nat)
                          else
                            (N.lor (N.lor (N.lor
                               (N.shiftl (N.land s0 0x07) 18)
                               (N.shiftl (N.land s1 0x3F) 12))
                               (N.shiftl (N.land s2 0x3F) 6))
                               (N.land s3 0x3F), 4%nat)
                      end
                end
          end
  end%N.

Definition bytes_of (s : string) : list N :=
  map N_of_ascii (list_ascii_of_string s).

(** *** [appendString], with [escapeHTML] set as [Marshal] sets it *)

Definition htmlSafe (b : N) : bool :=
  ((0x20 <=? b) && negb (b =? 0x22) && negb (b =? 0x26) && negb (b =? 0x3C)
   && negb (b =? 0x3E) && negb (b =? 0x5C))%N.

Definition escape (b : N) : string :=
  (if (b =? 0x5C) || (b =? 0x22) then "\" ++ String (ascii_of_N b) EmptyString
   else if b =? 0x08 then "\b"
   else if b =? 0x0C then "\f"
   else if b =? 0x0A then "\n"
   else if b =? 0x0D then "\r"
   else if b =? 0x09 then "\t"
   else "\u00" ++ hex (N.shiftr b 4) ++ hex (N.land b 0xF))%N%string.

(** The loop of [appendString] from a rune boundary ([more = 0]) or inside
    a well-formed rune, [more] bytes of which are still to be copied
    ([keep]) or were written as an escape. *)
Fixpoint escaped (more : nat) (keep : bool) (s : string) : string :=
  match s with
  | EmptyString => EmptyString
  | String c rest =>
      match more with
      | S k =>
          if keep then String c (escaped k keep rest) else escaped k keep rest
      | O =>
          let b := N_of_ascii c in
          if (b <? 0x80)%N then
            if htmlSafe b then String c (escaped 0 true rest)
            else escape b ++ escaped 0 true rest
          else
            let '(r, size) := DecodeRune (firstn 4 (bytes_of s)) in
            if (r =? RuneError)%N && (size =? 1)%nat
            then "\ufffd" ++ escaped 0 true rest
            else if ((r =? 0x2028) || (r =? 0x2029))%N
            then "\u202" ++ hex (N.land r 0xF) ++ escaped (size - 1) false rest
            else String c (escaped (size - 1) true rest)
      end
  end.

Definition appendString (s : string) : string :=
  dquote ++ escaped 0 true s ++ dquote.

(** *** Layout and rendering *)

Inductive value : Type :=
| Null
| Str (s : string)
| Int (z : Z)
| Arr (items : list value)
| Obj (members : list (string * value)).

Fixpoint render (v : value) : string :=
  match v with
  | Null => "null"
  | Str s => appendString s
  | Int z => NilZero.string_of_int (Z.to_int z)
  | Arr items =>
      "[" ++ (fix go (l : list value) : string :=
                match l with
                | [] => ""
                | x :: l' =>
                    render x ++
                    match l' with [] => "" | _ :: _ => "," ++ go l' end
                end) items ++ "]"
  | Obj members =>
      "{" ++ (fix go (l : list (string * value)) : string :=
                match l with
                | [] => ""
                | (k, x) :: l' =>
                    appendString k ++ ":" ++ render x ++
                    match l' with [] => "" | _ :: _ => "," ++ go l' end
                end) members ++ "}"
  end.

(** A slice is written as [null] when [nil]. *)
Definition of_slice {A} (f : A -> value) (s : slice A) : value :=
  match s with None => Null | Some l => Arr (map f l) end.

(** The keys of a map are written in increasing order. *)
Fixpoint insert_key {V} (e : string * V) (l : list (string * V)) :=
  match l with
  | [] => [e]
  | e' :: l' =>
      if String.leb (fst e) (fst e') then e :: l else e' :: insert_key e l'
  end.

Definition sort_keys {V} (l : list (string * V)) : list (string * V) :=
  fold_right insert_key [] l.

Definition of_dateparts (m : list (string * slice (slice Z))) : value :=
  Obj (map (fun e => (fst e, of_slice (of_slice Int) (snd e))) (sort_keys m)).

(** A field tagged [omitempty]: left out when a string is empty, and when
    a slice or a map has length 0. *)
Definition omit_string (key s : string) : list (string * value) :=
  if s =? "" then [] else [(key, Str s)].

Definition omit_dateparts (key : string) (m : dateparts) :=
  match m with
  | None | Some [] => []
  | Some l => [(key, of_dateparts l)]
  end.

Definition of_Author (a : Author.t) : value :=
  Obj (omit_string "given" (Author.Given a) ++
       omit_string "family" (Author.Family a) ++
       omit_string "literal" (Author.Literal a))%list.

Definition omit_authors (key : string) (s : slice Author.t) :=
  match s with
  | None | Some [] => []
  | Some l => [(key, Arr (map of_Author l))]
  end.

(** The members of the object written for a [CSL], in field order. *)
Definition members (c : CSL.t) : list (string * value) :=
  ([("id", Str (CSL.ID c)); ("type", Str (CSL.Type_ c))] ++
  omit_string "abstract" (CSL.Abstract c) ++
  omit_dateparts "accessed" (CSL.Accessed c) ++
  omit_authors "author" (CSL.Author c) ++
  omit_string "container-title" (CSL.ContainerTitle c) ++
  omit_string "DOI" (CSL.DOI c) ++
  omit_string "ISSN" (CSL.ISSN c) ++
  omit_string "issue" (CSL.Issue c) ++
  omit_dateparts "issued" (CSL.Issued c) ++
  omit_string "keyword" (CSL.Keyword c) ++
  omit_string "language" (CSL.Language c) ++
  omit_string "license" (CSL.License c) ++
  omit_string "page" (CSL.Page c) ++
  omit_string "publisher" (CSL.Publisher c) ++
  omit_dateparts "submitted" (CSL.Submitted c) ++
  omit_string "title" (CSL.Title c) ++
  omit_string "URL" (CSL.URL c) ++
  omit_string "version" (CSL.Version c) ++
  omit_string "volume" (CSL.Volume c))%list.

Definition of_CSL (c : CSL.t) : value := Obj (members c).

Definition encode (v : value) : list Byte.byte :=
  list_byte_of_string (render v).

(** [json.Marshal(csl)] and [json.Marshal(cslList)] *)
Definition Marshal (c : CSL.t) : slice Byte.byte * error :=
  (Some (encode (of_CSL c)), None).

Definition MarshalList (l : slice CSL.t) : slice Byte.byte * error :=
  (Some (encode (of_slice of_CSL l)), None).

End json.

(** ** Package [gojsonschema]: the result of a validation

    A [Result] holds the violations found, each with the field it is about and
    what is wrong with it; [Valid] says there is none. *)

Module gojsonschema.
Record ResultError : Type := mkError
  { Field : string;
    Description : string }.

Record Result : Type := mkResult { errors : slice ResultError }.

Definition Valid (v : Result) : bool := (len (errors v) =? 0)%nat.
Definition Errors (v : Result) : slice ResultError := errors v.
End gojsonschema.

(** ** Package [csl]: the functions, over the packages they import

    [doiutils.ValidateDOI], [dateutils.GetDateParts] and the method
    [Container.Pages] are declared in packages outside the files at hand: they
    are the section's variables, total functions of their argument.
    [ValidateDOI] returns the normalized DOI and whether the identifier was
    one (the converter drops the second result).  [schemautils.JSONSchemaErrors]
    is the validation oracle: for every document it returns the result of
    checking it against the schema of the given name. *)

Module csl.

(** [var CMToCSLMappings = map[string]string{...}] *)
Definition CMToCSLMappings : list (string * string) :=
  [ ("Article", "article");
    ("JournalArticle", "article-journal");
    ("Book", "book");
    ("BookChapter", "chapter");
    ("Collection", "collection");
    ("Dataset", "dataset");
    ("Document", "document");
    ("Entry", "entry");
    ("Event", "event");
    ("Figure", "figure");
    ("Image", "graphic");
    ("LegalDocument", "legal_case");
    ("Manuscript", "manuscript");
    ("Map", "map");
    ("Audiovisual", "motion_picture");
    ("Patent", "patent");
    ("Performance", "performance");
    ("Journal", "periodical");
    ("PersonalCommunication", "personal_communication");
    ("Report", "report");
    ("Review", "review");
    ("Software", "software");
    ("Presentation", "speech");
    ("Standard", "standard");
    ("Dissertation", "thesis");
    ("WebPage", "webpage") ].

(** [func Read(content content) (commonmeta.Data, error)] *)
Definition Read (c : content.t) : outcome (Data.t * error) :=
  let data := Data.zero in
  let data :=
    Data.mk (content.ID c) (Data.Type_ data) (Data.Container data)
      (Data.Contributors data) (Data.Date data) (Data.Descriptions data)
      (Data.Language data) (Data.Publisher data) (Data.Subjects data)
      (Data.Titles data) (Data.URL data) (Data.Version data) in
  ret (data, None).

Section Converter.

Variable ValidateDOI : string -> string * bool.
Variable GetDateParts : string -> dateparts.
Variable Pages : Container.t -> string.
Variable JSONSchemaErrors :
  slice Byte.byte -> string -> gojsonschema.Result.

(** The body of the loop over [data.Subjects], on [csl.Keyword]. *)
Definition keyword_step (keyword : string) (subject : Subject.t) : string :=
  if negb (Subject.Subject subject =? "")
  then keyword ++ Subject.Subject subject
  else keyword.

(** The body of the loop over [data.Contributors], on the local [author]
    and [csl.Author]. *)
Definition author_step (st : Author.t * slice Author.t)
    (contributor : Contributor.t) : Author.t * slice Author.t :=
  let '(author, authors) := st in
  if Contains (Contributor.ContributorRoles contributor) "Author" then
    let author :=
      if negb (Contributor.FamilyName contributor =? "")
      then Author.mk (Contributor.GivenName contributor)
                     (Contributor.FamilyName contributor) ""
      else Author.mk "" "" (Contributor.Name contributor) in
    (author, append authors author)
  else (author, authors).

(** [func Convert(data commonmeta.Data) (CSL, error)] *)
Definition Convert (data : Data.t) : outcome (CSL.t * error) :=
  let csl_ID := Data.ID data in
  let csl_Type := lookup CMToCSLMappings (Data.Type_ data) in
  let csl_Type :=
    if (Data.Type_ data =? "Software") && negb (Data.Version data =? "")
    then "book"
    else if csl_Type =? "" then "Document" else csl_Type in
  let csl_ContainerTitle := Container.Title (Data.Container data) in
  let '(doi, _) := ValidateDOI (Data.ID data) in
  let csl_DOI := doi in
  let csl_Issue := Container.Issue (Data.Container data) in
  let csl_Keyword :=
    if (0 <? length (Data.Subjects data))%nat
    then range (Data.Subjects data) keyword_step ""
    else "" in
  let csl_Language := Data.Language data in
  let csl_Page := Pages (Data.Container data) in
  csl_Title <-
    (if (0 <? length (Data.Titles data))%nat
     then title <- index (Data.Titles data) 0 ;; ret (Title.Title title)
     else ret "") ;;
  let csl_URL := Data.URL data in
  let csl_Volume := Container.Volume (Data.Container data) in
  let csl_Author :=
    if (0 <? length (Data.Contributors data))%nat
    then snd (range (Data.Contributors data) author_step (Author.zero, None))
    else None in
  let csl_Issued :=
    if negb (Date.Published (Data.Date data) =? "")
    then GetDateParts (Date.Published (Data.Date data)) else None in
  let csl_Submitted :=
    if negb (Date.Submitted (Data.Date data) =? "")
    then GetDateParts (Date.Submitted (Data.Date data)) else None in
  let csl_Accessed :=
    if negb (Date.Accessed (Data.Date data) =? "")
    then GetDateParts (Date.Accessed (Data.Date data)) else None in
  csl_Abstract <-
    (if (0 <? length (Data.Descriptions data))%nat
     then description <- index (Data.Descriptions data) 0 ;;
          ret (Description.Description description)
     else ret "") ;;
  let csl_Publisher := Publisher.Name (Data.Publisher data) in
  let csl_Version := Data.Version data in
  ret (CSL.mk csl_ID csl_Type csl_Abstract csl_Accessed csl_Author
         csl_ContainerTitle csl_DOI "" csl_Issue csl_Issued csl_Keyword
         csl_Language "" csl_Page csl_Publisher csl_Submitted csl_Title
         csl_URL csl_Version csl_Volume, None).

(** [if err != nil { fmt.Println(err) }] *)
Definition report (err : error) : outcome unit :=
  match err with
  | Some msg => Println msg
  | None => ret tt
  end.

(** [func Write(data commonmeta.Data) ([]byte, []gojsonschema.ResultError)] *)
Definition Write (data : Data.t)
  : outcome (slice Byte.byte * slice gojsonschema.ResultError) :=
  r <- Convert data ;;
  let '(csl, err) := r in
  report err ;;;
  let '(output, err) := json.Marshal csl in
  report err ;;;
  let validation := JSONSchemaErrors output "csl-data" in
  if negb (gojsonschema.Valid validation)
  then ret (None, gojsonschema.Errors validation)
  else ret (output, None).

(** The loop of [WriteList] over [list], on [cslList]. *)
Fixpoint convert_each (list : list Data.t) (cslList : slice CSL.t)
  : outcome (slice CSL.t) :=
  match list with
  | [] => ret cslList
  | data :: rest =>
      r <- Convert data ;;
      let '(csl, err) := r in
      report err ;;;
      convert_each rest (append cslList csl)
  end.

(** [func WriteList(list []commonmeta.Data) ([]byte, []gojsonschema.ResultError)] *)
Definition WriteList (list : list Data.t)
  : outcome (slice Byte.byte * slice gojsonschema.ResultError) :=
  cslList <- convert_each list None ;;
  let '(output, err) := json.MarshalList cslList in
  report err ;;;
  let validation := JSONSchemaErrors output "csl-data" in
  if negb (gojsonschema.Valid validation)
  then ret (None, gojsonschema.Errors validation)
  else ret (output, None).

(** *** Conversion followed by serialization *)

(** The bytes a record is converted to. *)
Definition converted (data : Data.t) : outcome (slice Byte.byte) :=
  r <- Convert data ;;
  let '(output, _) := json.Marshal (fst r) in
  ret output.

End Converter.

End csl.

(** ** Package [pflag]: the string flags of a command

    A flag set holds the flags defined on it, each with its current value.
    [StringP] defines a string flag, [Set] gives one a value as the command
    line does, [GetString] reads one. *)

Module pflag.

Record Flag : Type := mkFlag
  { Name : string;
    Shorthand : string;
    Usage : string;
    Value : string;
    DefValue : string }.

Definition FlagSet : Type := list Flag.

Definition Lookup (f : FlagSet) (name : string) : option Flag :=
  find (fun flag => Name flag =? name) f.

(** [f.StringP(name, shorthand, value, usage)]: panics when the name is
    defined already, when the shorthand has more than one character, and
    when the shorthand is in use. *)
Definition StringP (f : FlagSet) (name shorthand value usage : string)
  : outcome FlagSet :=
  match Lookup f name with
  | Some _ => Panics ("flag redefined: " ++ name)
  | None =>
      if shorthand =? "" then
        ret (f ++ [mkFlag name shorthand usage value value])%list
      else if (1 <? String.length shorthand)%nat then
        Panics ("shorthand is more than one ASCII character: " ++ shorthand)
      else if existsb (fun flag => Shorthand flag =? shorthand) f then
        Panics ("unable to redefine shorthand: " ++ shorthand)
      else ret (f ++ [mkFlag name shorthand usage value value])%list
  end.

(** [f.Set(name, value)] *)
Fixpoint Set_ (f : FlagSet) (name value : string) : FlagSet * error :=
  match f with
  | [] => ([], Some ("no such flag -" ++ name))
  | flag :: rest =>
      if Name flag =? name then
        (mkFlag (Name flag) (Shorthand flag) (Usage flag) value
           (DefValue flag) :: rest, None)
      else
        let '(rest', err) := Set_ rest name value in (flag :: rest', err)
  end.

(** [f.GetString(name)] *)
Definition GetString (f : FlagSet) (name : string) : string * error :=
  match Lookup f name with
  | Some flag => (Value flag, None)
  | None => ("", Some ("flag accessed but not defined: " ++ name))
  end.

End pflag.

(** ** Package [cmd]: the commands

    [rootCmd] and [convertCmd] fetch a record and print it.  The fetchers of
    the packages [crossref] and [datacite], the writer of the package
    [commonmeta] and the record type [types.Data] are declared outside the
    files at hand, and [json.MarshalIndent] and [json.Indent] are applied to
    that record type: they are the section's variables.  [Indent] is what
    the buffer holds after [json.Indent(&out, output, "=", "\t")], and
    [Sprint] how [fmt] formats a list of validation errors.  The [Run] of a
    command takes what cobra hands it: the flags of the command and the
    arguments. *)

Module cmd.

(** [if err != nil { fmt.Println(err) }] *)
Definition report (err : error) : outcome unit :=
  match err with
  | Some msg => Println msg
  | None => ret tt
  end.

(** [string(output)] *)
Definition string_of (output : slice Byte.byte) : string :=
  string_of_list_byte (elems output).

(** The calls of [StringP] in [init], on the persistent flags of a command
    (the [init] of [convertCmd] first adds the command to [rootCmd]). *)
Definition init (persistent : pflag.FlagSet) : outcome pflag.FlagSet :=
  persistent <-
    pflag.StringP persistent "from" "f" "crossref"
      "the format to convert from" ;;
  pflag.StringP persistent "to" "t" "commonmeta" "the format to convert to".

Section Commands.

Variable Data : Type.
Variable zero : Data.
Variable FetchCrossref : string -> Data * error.
Variable FetchDatacite : string -> Data * error.
Variable MarshalIndent : Data -> slice Byte.byte * error.
Variable WriteCommonmeta :
  Data -> slice Byte.byte * slice gojsonschema.ResultError.
Variable Indent : slice Byte.byte -> string.
Variable Sprint : list gojsonschema.ResultError -> string.

(** The [if from == "crossref" ... else if from == "datacite" ...] of both
    commands, on [data] and [err] as declared before it. *)
Definition fetch (from input : string) : Data * error :=
  let data := zero in
  let err : error := None in
  if from =? "crossref" then FetchCrossref input
  else if from =? "datacite" then FetchDatacite input
  else (data, err).

(** The [Run] of [convertCmd] *)
Definition convertCmd_Run (flags : pflag.FlagSet) (args : list string)
  : outcome unit :=
  if (length args =? 0)%nat then Println "Please provide an input DOI"
  else
    input <- index args 0 ;;
    let '(from, _) := pflag.GetString flags "from" in
    let '(data, err) := fetch from input in
    report err ;;;
    let '(output, err) := MarshalIndent data in
    report err ;;;
    Println (string_of output).

(** The [Run] of [rootCmd] *)
Definition rootCmd_Run (flags : pflag.FlagSet) (args : list string)
  : outcome unit :=
  if (length args =? 0)%nat then Println "Please provide an input DOI"
  else
    input <- index args 0 ;;
    let '(from, _) := pflag.GetString flags "from" in
    let '(data, err) := fetch from input in
    report err ;;;
    let '(output, jsErr) := WriteCommonmeta data in
    let out := Indent output in
    Println out ;;;
    match jsErr with
    | Some errors => Println (Sprint errors)
    | None => ret tt
    end.

End Commands.

End cmd.

(** ** Stand-ins for the imported packages

    Simple functions of the right types, on which the converter can be run:
    a validator that accepts what starts with [10.], a date parser that reads
    the numbers between dashes, a page range, and an oracle that accepts a
    JSON array. *)

Module sample.

Definition ValidateDOI (s : string) : string * bool :=
  if prefix "10." s then (s, true) else ("", false).

Fixpoint fields (cur : string) (s : string) : list string :=
  match s with
  | EmptyString => [cur]
  | String c rest =>
      if Ascii.eqb c "-" then cur :: fields "" rest
      else fields (cur ++ String c EmptyString) rest
  end.

Definition number (s : string) : list Z :=
  match NilZero.uint_of_string s with
  | Some u => [Z.of_uint u]
  | None => []
  end.

Definition GetDateParts (s : string) : dateparts :=
  Some [("date-parts", Some [Some (flat_map number (fields "" s))])].

Definition Pages (c : Container.t) : string :=
  if Container.FirstPage c =? "" then Container.LastPage c
  else if Container.LastPage c =? "" then Container.FirstPage c
  else Container.FirstPage c ++ "-" ++ Container.LastPage c.

Definition JSONSchemaErrors (document : slice Byte.byte) (schema : string)
  : gojsonschema.Result :=
  match document with
  | Some (Byte.x5b :: _) => gojsonschema.mkResult None
  | _ =>
      gojsonschema.mkResult
        (Some [gojsonschema.mkError "(root)" "Invalid type. Expected: array"])
  end.

(** The record of the end-to-end scenario. *)
Definition article : Data.t :=
  Data.mk "10.5555/12345678" "JournalArticle" Container.zero
    [Contributor.mk ["Author"] "Smith" "J" ""]
    (Date.mk "2021-03-01" "" "") [] "" Publisher.zero [] [Title.mk "Example"]
    "" "".

(** A software release. *)
Definition release : Data.t :=
  Data.mk "10.5281/zenodo.1" "Software" Container.zero [] Date.zero [] ""
    Publisher.zero [] [] "" "1.0".

(** What a JSON decoder reads from the document of the article into a
    [content]: its members [id] and [title]. *)
Definition decoded : content.t := content.mk "10.5555/12345678" "Example".

(** A record whose one author has a given name, but neither a family name
    nor a name. *)
Definition nameless : Data.t :=
  Data.mk "10.5555/12345678" "JournalArticle" Container.zero
    [Contributor.mk ["Author"] "" "Cher" ""] Date.zero [] ""
    Publisher.zero [] [] "" "".

(** A record of a type the table does not list, with nothing but an
    identifier that is no DOI. *)
Definition bare : Data.t :=
  Data.mk "urn:x" "Blog" Container.zero [] Date.zero [] "" Publisher.zero
    [] [] "" "".

(** An oracle that finds nothing wrong with any document. *)
Definition accept (document : slice Byte.byte) (schema : string)
  : gojsonschema.Result :=
  gojsonschema.mkResult None.

(** The journal article with what [Convert] does not look at: a subtitle,
    an editor, and an empty subject. *)
Definition article_more : Data.t :=
  Data.mk "10.5555/12345678" "JournalArticle" Container.zero
    [Contributor.mk ["Editor"] "Jones" "K" "";
     Contributor.mk ["Author"] "Smith" "J" ""]
    (Date.mk "2021-03-01" "" "") [] "" Publisher.zero [Subject.mk ""]
    [Title.mk "Example"; Title.mk "A subtitle"] "" "".

(** A registry that knows the identifiers starting with [10.]. *)
Definition Fetch (input : string) : Data.t * error :=
  if prefix "10." input
  then (Data.mk input "JournalArticle" Container.zero [] Date.zero [] ""
          Publisher.zero [] [] "" "", None)
  else (Data.zero, Some ("not found: " ++ input)).

(** An encoder that writes the identifier of a record and nothing else. *)
Definition MarshalIndent (data : Data.t) : slice Byte.byte * error :=
  (Some (list_byte_of_string (Data.ID data)), None).

Definition WriteCommonmeta (data : Data.t)
  : slice Byte.byte * slice gojsonschema.ResultError :=
  if Data.ID data =? ""
  then (None, Some [gojsonschema.mkError "id" "id is required"])
  else (Some (list_byte_of_string (Data.ID data)), None).

Definition Indent (output : slice Byte.byte) : string :=
  "=" ++ string_of_list_byte (elems output).

Definition Sprint (errors : list gojsonschema.ResultError) : string :=
  String.concat " "
    (map (fun e => gojsonschema.Field e ++ ": " ++
                   gojsonschema.Description e) errors).

(** The flags of a command as [init] defines them, and with [from] set to
    a format without fetcher. *)
Definition flags : pflag.FlagSet :=
  [pflag.mkFlag "from" "f" "the format to convert from" "crossref" "crossref";
   pflag.mkFlag "to" "t" "the format to convert to" "commonmeta" "commonmeta"].

Definition flags_bibtex : pflag.FlagSet :=
  fst (pflag.Set_ flags "from" "bibtex").

End sample.

(** ** What the properties are stated with *)

(** What the converter emits for a contributor that is an author. *)
Definition emitted (c : Contributor.t) : Author.t :=
  if Contributor.FamilyName c =? ""
  then Author.mk "" "" (Contributor.Name c)
  else Author.mk (Contributor.GivenName c) (Contributor.FamilyName c) "".

Definition is_author (c : Contributor.t) : bool :=
  Contains (Contributor.ContributorRoles c) "Author".

(** The names of the members of the object written for a record. *)
Definition keys (c : CSL.t) : list string := map fst (json.members c).

(** An author has a structured name when a given or a family name is
    there, and a literal name when the literal is. *)
Definition structured (a : Author.t) : Prop :=
  Author.Given a <> "" \/ Author.Family a <> "".

Definition literal (a : Author.t) : Prop := Author.Literal a <> "".

(** Two records between which [Convert] sees no difference: the same
    scalars, container, dates and publisher, the same first title and first
    description, the same contributors with the role [Author], and the same
    subjects once written one after the other. *)
Definition same_for_Convert (d d' : Data.t) : Prop :=
  Data.ID d = Data.ID d' /\
  Data.Type_ d = Data.Type_ d' /\
  Data.Container d = Data.Container d' /\
  filter is_author (Data.Contributors d) =
    filter is_author (Data.Contributors d') /\
  Data.Date d = Data.Date d' /\
  firstn 1 (Data.Descriptions d) = firstn 1 (Data.Descriptions d') /\
  Data.Language d = Data.Language d' /\
  Data.Publisher d = Data.Publisher d' /\
  String.concat "" (map Subject.Subject (Data.Subjects d)) =
    String.concat "" (map Subject.Subject (Data.Subjects d')) /\
  firstn 1 (Data.Titles d) = firstn 1 (Data.Titles d') /\
  Data.URL d = Data.URL d' /\
  Data.Version d = Data.Version d'.




(** What [convertCmd] does with the record it has fetched, and what
    [rootCmd] does. *)
Definition convertCmd_prints (Data : Type)
    (MarshalIndent : Data -> slice Byte.byte * error)
    (fetched : Data * error) : outcome unit :=
  let '(data, err) := fetched in
  cmd.report err ;;;
  let '(output, err) := MarshalIndent data in
  cmd.report err ;;;
  Println (cmd.string_of output).

Definition rootCmd_prints (Data : Type)
    (WriteCommonmeta :
       Data -> slice Byte.byte * slice gojsonschema.ResultError)
    (Indent : slice Byte.byte -> string)
    (Sprint : list gojsonschema.ResultError -> string)
    (fetched : Data * error) : outcome unit :=
  let '(data, err) := fetched in
  cmd.report err ;;;
  let '(output, jsErr) := WriteCommonmeta data in
  Println (Indent output) ;;;
  match jsErr with
  | Some errors => Println (Sprint errors)
  | None => ret tt
  end.


(** * Properties *)

(** ** Guarded access to the first element

    An index access under [len(l) > 0] does not panic: it reads the first
    element when there is one. *)
Lemma guarded_first {A} (l : list A) (f : A -> string) :
  (if (0 <? length l)%nat then x <- index l 0 ;; ret (f x) else ret "") =
  ret (match l with [] => "" | x :: _ => f x end).
Proof. destruct l; reflexivity. Qed.

(** ** Strings and loops *)

Lemma append_empty_r (s : string) : s ++ "" = s.
Proof. induction s as [|c s IH]; simpl; [reflexivity | now rewrite IH]. Qed.

Lemma append_assoc (a b c : string) : (a ++ b) ++ c = a ++ (b ++ c).
Proof. induction a as [|x a IH]; simpl; [reflexivity | now rewrite IH]. Qed.

Lemma concat_empty_cons (x : string) (l : list string) :
  String.concat "" (x :: l) = x ++ String.concat "" l.
Proof.
  destruct l as [|y l]; simpl.
  - now rewrite append_empty_r.
  - reflexivity.
Qed.

(** The loop over the subjects appends the non-empty ones to what was there. *)
Lemma keyword_loop (l : list Subject.t) (keyword : string) :
  range l csl.keyword_step keyword =
  keyword ++
  String.concat "" (filter (fun s => negb (s =? "")) (map Subject.Subject l)).
Proof.
  unfold range. revert keyword.
  induction l as [|subject l IH]; intro keyword.
  - simpl. now rewrite append_empty_r.
  - cbn [fold_left map filter]. rewrite IH. unfold csl.keyword_step.
    destruct (Subject.Subject subject =? "") eqn:E; cbn [negb].
    + reflexivity.
    + now rewrite concat_empty_cons, append_assoc.
Qed.

Lemma elems_append {A} (s : slice A) (x : A) :
  elems (append s x) = (elems s ++ [x])%list.
Proof. destruct s; reflexivity. Qed.

(** The loop over the contributors appends what is emitted for the authors,
    whatever the local [author] held before. *)
Lemma author_loop (l : list Contributor.t) (author : Author.t)
    (authors : slice Author.t) :
  elems (snd (range l csl.author_step (author, authors))) =
  (elems authors ++ map emitted (filter is_author l))%list.
Proof.
  unfold range. revert author authors.
  induction l as [|c l IH]; intros author authors.
  - simpl. now rewrite app_nil_r.
  - cbn [fold_left filter]. unfold csl.author_step at 2. fold (is_author c).
    destruct (is_author c) eqn:E.
    + rewrite IH, elems_append, <- app_assoc. cbn [map app].
      unfold emitted. now destruct (Contributor.FamilyName c =? "").
    + apply IH.
Qed.

(** ** Which members an encoded record has *)

Lemma key_of_omit_string (key s k : string) :
  In k (map fst (json.omit_string key s)) -> k = key /\ s <> "".
Proof.
  unfold json.omit_string. destruct (String.eqb_spec s "") as [->|N]; simpl.
  - tauto.
  - intros [<-|[]]. now split.
Qed.

Lemma key_of_omit_dateparts (key : string) (m : dateparts) (k : string) :
  In k (map fst (json.omit_dateparts key m)) ->
  k = key /\ exists e l, m = Some (e :: l).
Proof.
  destruct m as [[|e l]|]; simpl; try tauto.
  intros [<-|[]]. split; [reflexivity | now exists e, l].
Qed.

Lemma key_of_omit_authors (key : string) (s : slice Author.t) (k : string) :
  In k (map fst (json.omit_authors key s)) ->
  k = key /\ exists a l, s = Some (a :: l).
Proof.
  destruct s as [[|a l]|]; simpl; try tauto.
  intros [<-|[]]. split; [reflexivity | now exists a, l].
Qed.

Ltac other_key H :=
  first
    [ apply key_of_omit_string in H; destruct H as [H _]; discriminate H
    | apply key_of_omit_dateparts in H; destruct H as [H _]; discriminate H
    | apply key_of_omit_authors in H; destruct H as [H _]; discriminate H ].

Ltac split_keys H :=
  unfold keys, json.members in H;
  repeat rewrite map_app in H;
  repeat (apply in_app_or in H; destruct H as [H|H]).

Lemma issued_key (c : CSL.t) :
  In "issued" (keys c) -> exists e l, CSL.Issued c = Some (e :: l).
Proof.
  intro H. split_keys H; try (other_key H).
  - simpl in H. destruct H as [H|[H|[]]]; discriminate H.
  - now apply key_of_omit_dateparts in H.
Qed.

Lemma submitted_key (c : CSL.t) :
  In "submitted" (keys c) -> exists e l, CSL.Submitted c = Some (e :: l).
Proof.
  intro H. split_keys H; try (other_key H).
  - simpl in H. destruct H as [H|[H|[]]]; discriminate H.
  - now apply key_of_omit_dateparts in H.
Qed.

Lemma accessed_key (c : CSL.t) :
  In "accessed" (keys c) -> exists e l, CSL.Accessed c = Some (e :: l).
Proof.
  intro H. split_keys H; try (other_key H).
  - simpl in H. destruct H as [H|[H|[]]]; discriminate H.
  - now apply key_of_omit_dateparts in H.
Qed.

(** ** The converter *)

Section Properties.

Variable ValidateDOI : string -> string * bool.
Variable GetDateParts : string -> dateparts.
Variable Pages : Container.t -> string.
Variable JSONSchemaErrors :
  slice Byte.byte -> string -> gojsonschema.Result.

Local Abbreviation Convert := (csl.Convert ValidateDOI GetDateParts Pages).
Local Abbreviation Write :=
  (csl.Write ValidateDOI GetDateParts Pages JSONSchemaErrors).
Local Abbreviation WriteList :=
  (csl.WriteList ValidateDOI GetDateParts Pages JSONSchemaErrors).
Local Abbreviation converted :=
  (csl.converted ValidateDOI GetDateParts Pages).

(** Runs [Convert data] to the record it returns. *)
Ltac run_convert data :=
  unfold csl.Convert;
  destruct (ValidateDOI (Data.ID data)) as [doi ok] eqn:Hdoi;
  rewrite !guarded_first;
  cbn [bind ret app];
  eexists; (split; [reflexivity|]);
  cbn [CSL.ID CSL.Type_ CSL.Abstract CSL.Accessed CSL.Author
       CSL.ContainerTitle CSL.DOI CSL.ISSN CSL.Issue CSL.Issued
       CSL.Keyword CSL.Language CSL.License CSL.Page CSL.Publisher
       CSL.Submitted CSL.Title CSL.URL CSL.Version CSL.Volume fst snd].

(** [Convert] returns for every record, with a [nil] error and nothing
    printed. *)
Lemma Convert_returns (data : Data.t) :
  exists csl, Convert data = Returns [] (csl, None).
Proof.
  assert (exists csl, Convert data = Returns [] (csl, None) /\ True)
    as [csl [H _]] by (run_convert data; exact I).
  now exists csl.
Qed.

(** C7: [Convert] is total and returns no error: it returns a record and
    a [nil] error for every canonical record, without a panic; with no
    titles the title of the record is empty, with no descriptions its
    abstract is empty. *)
Theorem Convert_total (data : Data.t) :
  exists csl,
    Convert data = Returns [] (csl, None) /\
    (Data.Titles data = [] -> CSL.Title csl = "") /\
    (Data.Descriptions data = [] -> CSL.Abstract csl = "").
Proof.
  run_convert data; split; intros ->; reflexivity.
Qed.

(** C2: a record of type [Software] with a non-empty version is converted
    to a record of type [book], although the table maps [Software] to
    [software]. *)
Theorem Convert_software_release (data : Data.t) :
  Data.Type_ data = "Software" ->
  Data.Version data <> "" ->
  exists csl,
    Convert data = Returns [] (csl, None) /\
    CSL.Type_ csl = "book" /\
    lookup csl.CMToCSLMappings (Data.Type_ data) = "software".
Proof.
  intros Htype Hversion.
  apply String.eqb_neq in Hversion.
  run_convert data; rewrite Htype, Hversion; split; reflexivity.
Qed.

(** C6: the keyword of the converted record is the concatenation, in source
    order and with nothing in between, of the non-empty subject strings; an
    empty subject adds nothing. *)
Theorem Convert_keyword (data : Data.t) :
  exists csl,
    Convert data = Returns [] (csl, None) /\
    CSL.Keyword csl =
    String.concat ""
      (filter (fun s => negb (s =? ""))
         (map Subject.Subject (Data.Subjects data))).
Proof.
  run_convert data;
    (destruct (Data.Subjects data) as [|subject subjects];
     [reflexivity | cbn [length Nat.ltb Nat.leb]; apply keyword_loop]).
Qed.

(** C3 (amended): the authors of the converted record are what is emitted
    for the contributors whose roles contain [Author], in source order.  For
    a contributor with a family name the author has the given and the
    family name and no literal: the structured name and not the literal
    one.  For a contributor without, the author has the name as literal and
    neither given nor family name: the literal name and not the structured
    one when the name is not empty, and no name at all when it is.  No
    author has both. *)
Theorem Convert_authors (data : Data.t) :
  exists csl,
    Convert data = Returns [] (csl, None) /\
    elems (CSL.Author csl) =
      map emitted (filter is_author (Data.Contributors data)) /\
    (forall c, In c (Data.Contributors data) -> is_author c = true ->
       (Contributor.FamilyName c <> "" ->
        emitted c =
        Author.mk (Contributor.GivenName c) (Contributor.FamilyName c) "" /\
        structured (emitted c) /\ ~ literal (emitted c)) /\
       (Contributor.FamilyName c = "" ->
        emitted c = Author.mk "" "" (Contributor.Name c) /\
        ~ structured (emitted c) /\
        (Contributor.Name c <> "" -> literal (emitted c)) /\
        (Contributor.Name c = "" -> emitted c = Author.zero))) /\
    Forall (fun a => ~ (structured a /\ literal a)) (elems (CSL.Author csl)).
Proof.
  assert (Hshape : forall c,
    (Contributor.FamilyName c <> "" ->
     emitted c =
     Author.mk (Contributor.GivenName c) (Contributor.FamilyName c) "" /\
     structured (emitted c) /\ ~ literal (emitted c)) /\
    (Contributor.FamilyName c = "" ->
     emitted c = Author.mk "" "" (Contributor.Name c) /\
     ~ structured (emitted c) /\
     (Contributor.Name c <> "" -> literal (emitted c)) /\
     (Contributor.Name c = "" -> emitted c = Author.zero))).
  { intro c. unfold emitted, structured, literal.
    destruct (String.eqb_spec (Contributor.FamilyName c) "") as [E|N];
      split; intro H; try contradiction; cbn.
    - split; [reflexivity|]. split; [tauto|].
      split; [tauto|]. now intros ->.
    - split; [reflexivity|]. split; [now right | tauto]. }
  assert (Hloop :
    elems (if (0 <? length (Data.Contributors data))%nat
           then snd (range (Data.Contributors data) csl.author_step
                       (Author.zero, None))
           else None) =
    map emitted (filter is_author (Data.Contributors data))).
  { destruct (Data.Contributors data) as [|c l] eqn:E; [reflexivity|].
    cbn [length Nat.ltb Nat.leb]. now rewrite author_loop. }
  run_convert data; rewrite Hloop;
    (split; [reflexivity | split; [intros c _ _; apply Hshape|]]);
    apply Forall_forall; intros a Ha; apply in_map_iff in Ha;
    destruct Ha as [c [<- _]]; unfold emitted, structured, literal;
    destruct (Contributor.FamilyName c =? ""); cbn; tauto.
Qed.

(** C4 (amended): a record whose type has no entry in the table is converted
    to a record of type [Document]; a record whose type has an entry is
    converted to a record of that entry's type, unless it is a [Software]
    record with a non-empty version. *)
Theorem Convert_type (data : Data.t) :
  exists csl,
    Convert data = Returns [] (csl, None) /\
    (lookup csl.CMToCSLMappings (Data.Type_ data) = "" ->
     CSL.Type_ csl = "Document") /\
    (lookup csl.CMToCSLMappings (Data.Type_ data) <> "" ->
     Data.Type_ data <> "Software" \/ Data.Version data = "" ->
     CSL.Type_ csl = lookup csl.CMToCSLMappings (Data.Type_ data)).
Proof.
  run_convert data; split.
  - intro Hnone. rewrite Hnone.
    destruct (String.eqb_spec (Data.Type_ data) "Software") as [E|N].
    + rewrite E in Hnone. discriminate Hnone.
    + reflexivity.
  - intros Hsome Hplain. apply String.eqb_neq in Hsome. rewrite Hsome.
    destruct Hplain as [N|E].
    + apply String.eqb_neq in N. now rewrite N.
    + rewrite E. cbn. now rewrite andb_false_r.
Qed.

(** C5: each of the three dates is handled on its own: a non-empty
    [Published], [Submitted] or [Accessed] is passed through [GetDateParts]
    into [Issued], [Submitted] or [Accessed]; an empty one leaves the field
    [nil], and the encoded record has no member of that name. *)
Theorem Convert_dates (data : Data.t) :
  exists csl,
    Convert data = Returns [] (csl, None) /\
    ((Date.Published (Data.Date data) <> "" ->
      CSL.Issued csl = GetDateParts (Date.Published (Data.Date data))) /\
     (Date.Published (Data.Date data) = "" ->
      CSL.Issued csl = None /\ ~ In "issued" (keys csl))) /\
    ((Date.Submitted (Data.Date data) <> "" ->
      CSL.Submitted csl = GetDateParts (Date.Submitted (Data.Date data))) /\
     (Date.Submitted (Data.Date data) = "" ->
      CSL.Submitted csl = None /\ ~ In "submitted" (keys csl))) /\
    ((Date.Accessed (Data.Date data) <> "" ->
      CSL.Accessed csl = GetDateParts (Date.Accessed (Data.Date data))) /\
     (Date.Accessed (Data.Date data) = "" ->
      CSL.Accessed csl = None /\ ~ In "accessed" (keys csl))).
Proof.
  run_convert data.
  split; [|split].
  - split.
    + intro N. apply String.eqb_neq in N. now rewrite N.
    + intro E. rewrite E. split; [reflexivity|].
      intro H. apply issued_key in H. destruct H as [e [l H]].
      cbn in H. discriminate H.
  - split.
    + intro N. apply String.eqb_neq in N. now rewrite N.
    + intro E. rewrite E. split; [reflexivity|].
      intro H. apply submitted_key in H. destruct H as [e [l H]].
      cbn in H. discriminate H.
  - split.
    + intro N. apply String.eqb_neq in N. now rewrite N.
    + intro E. rewrite E. split; [reflexivity|].
      intro H. apply accessed_key in H. destruct H as [e [l H]].
      cbn in H. discriminate H.
Qed.

(** The identifier of the converted record is that of the source. *)
Lemma Convert_ID (data : Data.t) :
  exists csl,
    Convert data = Returns [] (csl, None) /\
    CSL.ID csl = Data.ID data /\ CSL.Title csl =
    match Data.Titles data with [] => "" | t :: _ => Title.Title t end.
Proof. run_convert data. now split. Qed.

(** C9: the identifier is copied as it is into [ID], and what the DOI
    validator returns for it goes into [DOI]; for a validator that returns
    the empty string when it fails, a failure leaves [DOI] empty, and the
    conversion returns all the same. *)
Theorem Convert_identifier
    (Hfail : forall s, snd (ValidateDOI s) = false -> fst (ValidateDOI s) = "")
    (data : Data.t) :
  exists csl,
    Convert data = Returns [] (csl, None) /\
    CSL.ID csl = Data.ID data /\
    CSL.DOI csl = fst (ValidateDOI (Data.ID data)) /\
    (snd (ValidateDOI (Data.ID data)) = false -> CSL.DOI csl = "").
Proof.
  pose proof (Hfail (Data.ID data)) as H.
  run_convert data. cbn [fst snd] in H.
  repeat split; assumption.
Qed.

(** ** The validation gate *)

(** What the gate returns once the document is encoded: the document when
    the validator finds nothing wrong with it, and else the errors of the
    validator, of which there is at least one. *)
Lemma gate_cases (output : list Byte.byte) :
  let validation := JSONSchemaErrors (Some output) "csl-data" in
  let result :=
    if negb (gojsonschema.Valid validation)
    then (None, gojsonschema.Errors validation)
    else (Some output, None) in
  (gojsonschema.Valid validation = true /\ result = (Some output, None)) \/
  (exists e es,
     gojsonschema.Errors validation = Some (e :: es) /\
     result = (None, Some (e :: es))).
Proof.
  cbv zeta. unfold gojsonschema.Valid, gojsonschema.Errors.
  destruct (gojsonschema.errors (JSONSchemaErrors (Some output) "csl-data"))
    as [[|e es]|]; cbn.
  - now left.
  - right. now exists e, es.
  - now left.
Qed.

(** C1: for every canonical record [Write] returns either the bytes, not
    [nil], to which the converted record is encoded, with a [nil] error
    list, when the validator finds nothing wrong with these bytes under the
    schema [csl-data]; or else [nil] bytes with the errors the validator
    has found in them, of which there is at least one.  It prints nothing
    on the way. *)
Theorem Write_exclusive (data : Data.t) :
  exists c,
    Convert data = Returns [] (c, None) /\
    (let output := json.encode (json.of_CSL c) in
     let validation := JSONSchemaErrors (Some output) "csl-data" in
     (gojsonschema.Valid validation = true /\
      Write data = Returns [] (Some output, None)) \/
     (exists e es,
        gojsonschema.Errors validation = Some (e :: es) /\
        Write data = Returns [] (None, Some (e :: es)))).
Proof.
  destruct (Convert_returns data) as [c Hc].
  exists c. split; [exact Hc|]. cbv zeta.
  unfold csl.Write. rewrite Hc. unfold json.Marshal.
  cbn [bind csl.report ret app].
  destruct (gate_cases (json.encode (json.of_CSL c)))
    as [[V H]|[e [es [E H]]]]; cbv zeta in H.
  - left. split; [exact V|].
    destruct (negb _); [discriminate H | reflexivity].
  - right. exists e, es. split; [exact E|].
    destruct (negb _); [|discriminate H].
    cbn [bind ret app]. unfold ret. now rewrite H.
Qed.

(** ** The read path *)

(** C10: [Read] copies the [id] of its input into the record it returns and
    leaves every other field at its zero value, whatever the [title] of the
    input; it returns a [nil] error. *)
Theorem Read_copies_id (c : content.t) :
  exists data,
    csl.Read c = Returns [] (data, None) /\
    Data.ID data = content.ID c /\
    Data.Type_ data = "" /\
    Data.Container data = Container.zero /\
    Data.Contributors data = [] /\
    Data.Date data = Date.zero /\
    Data.Descriptions data = [] /\
    Data.Language data = "" /\
    Data.Publisher data = Publisher.zero /\
    Data.Subjects data = [] /\
    Data.Titles data = [] /\
    Data.URL data = "" /\
    Data.Version data = "".
Proof.
  unfold csl.Read. eexists. split; [reflexivity|].
  cbn. repeat split.
Qed.

Lemma converted_returns (data : Data.t) :
  exists output, converted data = Returns [] (Some output).
Proof.
  destruct (Convert_returns data) as [c Hc].
  unfold csl.converted. rewrite Hc. cbn. eexists. reflexivity.
Qed.


(** ** Sequences of records *)

(** The loop of [WriteList] appends the conversions of the records to
    [cslList], in the order of the records. *)
Lemma convert_each_in_order (list : list Data.t) (cslList : slice CSL.t) :
  exists cs l,
    csl.convert_each ValidateDOI GetDateParts Pages list cslList =
    Returns [] cs /\
    elems cs = (elems cslList ++ l)%list /\
    Forall2 (fun data c => Convert data = Returns [] (c, None)) list l.
Proof.
  revert cslList. induction list as [|data rest IH]; intro cslList.
  - exists cslList, []. cbn. rewrite app_nil_r. repeat split. constructor.
  - destruct (Convert_returns data) as [c Hc].
    destruct (IH (append cslList c)) as [cs [l [H [Helems Hall]]]].
    exists cs, (c :: l). cbn [csl.convert_each]. rewrite Hc.
    cbn [bind csl.report ret app]. rewrite H. split; [reflexivity|].
    split.
    + rewrite Helems, elems_append, <- app_assoc. reflexivity.
    + now constructor.
Qed.

(** What [WriteList] converts a list to and submits: the conversions of
    the records, in the order of the list, [nil] for the empty list. *)
Lemma WriteList_converts (list : list Data.t) :
  exists cs,
    csl.convert_each ValidateDOI GetDateParts Pages list None =
    Returns [] cs /\
    Forall2 (fun data c => Convert data = Returns [] (c, None))
      list (elems cs) /\
    (cs = None <-> list = []).
Proof.
  destruct (convert_each_in_order list None) as [cs [l [H [Helems Hall]]]].
  cbn [elems app] in Helems. rewrite <- Helems in Hall.
  exists cs. split; [exact H|]. split; [exact Hall|]. split.
  - intros ->. inversion Hall. reflexivity.
  - intros ->. cbn in H. now injection H as <-.
Qed.

(** X1: for every list [WriteList] returns either the bytes, not [nil],
    to which the conversions of the records, in the order of the list, are
    encoded as one sequence, with a [nil] error list, when the validator
    finds nothing wrong with these bytes under the schema [csl-data]; or
    else [nil] bytes with the errors the validator has found in them, of
    which there is at least one. *)
Theorem WriteList_exclusive (list : list Data.t) :
  exists cs,
    Forall2 (fun data c => Convert data = Returns [] (c, None))
      list (elems cs) /\
    (let output := json.encode (json.of_slice json.of_CSL cs) in
     let validation := JSONSchemaErrors (Some output) "csl-data" in
     (gojsonschema.Valid validation = true /\
      WriteList list = Returns [] (Some output, None)) \/
     (exists e es,
        gojsonschema.Errors validation = Some (e :: es) /\
        WriteList list = Returns [] (None, Some (e :: es)))).
Proof.
  destruct (WriteList_converts list) as [cs [Hcs [Hall _]]].
  exists cs. split; [exact Hall|]. cbv zeta.
  unfold csl.WriteList. rewrite Hcs. unfold json.MarshalList.
  cbn [bind csl.report ret app].
  destruct (gate_cases (json.encode (json.of_slice json.of_CSL cs)))
    as [[V H]|[e [es [E H]]]]; cbv zeta in H.
  - left. split; [exact V|].
    destruct (negb _); [discriminate H | reflexivity].
  - right. exists e, es. split; [exact E|].
    destruct (negb _); [|discriminate H].
    cbn [bind ret app]. unfold ret. now rewrite H.
Qed.

(** X2: [WriteList] converts the records in input order: the sequence it
    encodes and submits to the validator holds, position by position, the
    conversions of the records, and is [nil] for the empty list only. *)
Theorem WriteList_in_order (list : list Data.t) :
  exists cs,
    Forall2 (fun data c => Convert data = Returns [] (c, None))
      list (elems cs) /\
    (cs = None <-> list = []) /\
    let document := Some (json.encode (json.of_slice json.of_CSL cs)) in
    WriteList list =
    Returns []
      (if negb (gojsonschema.Valid (JSONSchemaErrors document "csl-data"))
       then (None, gojsonschema.Errors (JSONSchemaErrors document "csl-data"))
       else (document, None)).
Proof.
  destruct (WriteList_converts list) as [cs [Hcs [Hall Hnil]]].
  exists cs. split; [exact Hall|]. split; [exact Hnil|]. cbv zeta.
  unfold csl.WriteList. rewrite Hcs. unfold json.MarshalList.
  cbn [bind csl.report ret app]. now destruct (negb _).
Qed.

(** X3: for the empty list [cslList] stays [nil], so that the document
    [WriteList] submits to the validator is [null]. *)
Theorem WriteList_empty :
  let document := Some (list_byte_of_string "null") in
  WriteList [] =
  Returns []
    (if negb (gojsonschema.Valid (JSONSchemaErrors document "csl-data"))
     then (None, gojsonschema.Errors (JSONSchemaErrors document "csl-data"))
     else (document, None)).
Proof.
  cbv zeta. unfold csl.WriteList.
  cbn [csl.convert_each bind csl.report ret app json.MarshalList].
  change (json.encode (json.of_slice json.of_CSL None))
    with (list_byte_of_string "null").
  now destruct (negb _).
Qed.

(** The end-to-end scenario: the journal article is converted to a
    record of type [article-journal] with the title [Example], the one
    author Smith, J and the date parts of its publication date. *)
Theorem Convert_article :
  exists c,
    Convert sample.article = Returns [] (c, None) /\
    CSL.Type_ c = "article-journal" /\
    CSL.Title c = "Example" /\
    CSL.Author c = Some [Author.mk "J" "Smith" ""] /\
    CSL.Issued c = GetDateParts "2021-03-01" /\
    CSL.ID c = "10.5555/12345678".
Proof.
  run_convert sample.article. cbn. repeat split.
Qed.

End Properties.

(** ** The theorems at sample records *)

(** At the software release the record is a book. *)
Lemma Convert_software_release_witness :
  exists c,
    csl.Convert sample.ValidateDOI sample.GetDateParts sample.Pages
      sample.release = Returns [] (c, None) /\
    CSL.Type_ c = "book" /\
    lookup csl.CMToCSLMappings (Data.Type_ sample.release) = "software".
Proof.
  apply (Convert_software_release sample.ValidateDOI sample.GetDateParts
           sample.Pages sample.release).
  - reflexivity.
  - discriminate.
Defined.

(** The sample validator returns the empty string when it fails, and fails
    at the identifier of the bare record. *)
Lemma Convert_identifier_witness :
  snd (sample.ValidateDOI (Data.ID sample.bare)) = false /\
  exists c,
    csl.Convert sample.ValidateDOI sample.GetDateParts sample.Pages
      sample.bare = Returns [] (c, None) /\
    CSL.ID c = Data.ID sample.bare /\
    CSL.DOI c = fst (sample.ValidateDOI (Data.ID sample.bare)) /\
    (snd (sample.ValidateDOI (Data.ID sample.bare)) = false -> CSL.DOI c = "").
Proof.
  split; [reflexivity|].
  apply (Convert_identifier sample.ValidateDOI sample.GetDateParts
           sample.Pages).
  intro s. unfold sample.ValidateDOI.
  destruct (prefix "10." s); simpl; [discriminate | reflexivity].
Defined.

(** C4, as stated, fails at the software release: its type has the entry
    [software], and the record is a book whatever the imported packages
    do. *)
Lemma Convert_type_overridden :
  lookup csl.CMToCSLMappings (Data.Type_ sample.release) = "software" /\
  (forall ValidateDOI GetDateParts Pages, exists c,
     csl.Convert ValidateDOI GetDateParts Pages sample.release =
     Returns [] (c, None) /\
     CSL.Type_ c = "book" /\
     CSL.Type_ c <> lookup csl.CMToCSLMappings (Data.Type_ sample.release)).
Proof.
  split; [reflexivity|].
  intros V G P.
  destruct (Convert_returns V G P sample.release) as [c Hc].
  exists c. split; [exact Hc|].
  unfold csl.Convert in Hc. rewrite !guarded_first in Hc.
  destruct (V (Data.ID sample.release)) as [doi ok].
  cbn in Hc. injection Hc as <-. cbn. split; [reflexivity | discriminate].
Qed.


(** At the journal article: one author, with given and family name. *)
Lemma Convert_authors_witness :
  exists c,
    csl.Convert sample.ValidateDOI sample.GetDateParts sample.Pages
      sample.article = Returns [] (c, None) /\
    elems (CSL.Author c) = [Author.mk "J" "Smith" ""].
Proof.
  destruct (Convert_authors sample.ValidateDOI sample.GetDateParts
              sample.Pages sample.article) as [c [Hc [Hauthors _]]].
  exists c. split; [exact Hc | exact Hauthors].
Defined.

(** At the bare record the type is the default, at the journal article it
    is the entry of the table. *)
Lemma Convert_type_witness :
  (exists c,
     csl.Convert sample.ValidateDOI sample.GetDateParts sample.Pages
       sample.bare = Returns [] (c, None) /\
     CSL.Type_ c = "Document") /\
  (exists c,
     csl.Convert sample.ValidateDOI sample.GetDateParts sample.Pages
       sample.article = Returns [] (c, None) /\
     CSL.Type_ c = "article-journal").
Proof.
  split.
  - destruct (Convert_type sample.ValidateDOI sample.GetDateParts
                sample.Pages sample.bare) as [c [Hc [Hnone _]]].
    exists c. split; [exact Hc | apply Hnone; reflexivity].
  - destruct (Convert_type sample.ValidateDOI sample.GetDateParts
                sample.Pages sample.article) as [c [Hc [_ Hentry]]].
    exists c. split; [exact Hc|].
    apply Hentry; [discriminate | left; discriminate].
Defined.

(** At the journal article: published, neither submitted nor accessed. *)
Lemma Convert_dates_witness :
  exists c,
    csl.Convert sample.ValidateDOI sample.GetDateParts sample.Pages
      sample.article = Returns [] (c, None) /\
    CSL.Issued c = Some [("date-parts", Some [Some [2021; 3; 1]%Z])] /\
    CSL.Submitted c = None /\ ~ In "submitted" (keys c) /\
    CSL.Accessed c = None /\ ~ In "accessed" (keys c).
Proof.
  destruct (Convert_dates sample.ValidateDOI sample.GetDateParts
              sample.Pages sample.article)
    as [c [Hc [[Hissued _] [[_ Hsubmitted] [_ Haccessed]]]]].
  exists c. split; [exact Hc|].
  split; [apply Hissued; discriminate|].
  split; [apply Hsubmitted; reflexivity|].
  split; [apply Hsubmitted; reflexivity|].
  split; [apply Haccessed; reflexivity | apply Haccessed; reflexivity].
Defined.

(** At the bare record, which has neither titles nor descriptions. *)
Lemma Convert_total_witness :
  exists c,
    csl.Convert sample.ValidateDOI sample.GetDateParts sample.Pages
      sample.bare = Returns [] (c, None) /\
    CSL.Title c = "" /\ CSL.Abstract c = "".
Proof.
  destruct (Convert_total sample.ValidateDOI sample.GetDateParts
              sample.Pages sample.bare) as [c [Hc [Htitle Habstract]]].
  exists c. split; [exact Hc|].
  split; [apply Htitle | apply Habstract]; reflexivity.
Defined.

(** * Further properties of the converter *)

(** ** The table *)

(** What is read from a table is empty or one of its values. *)
Lemma lookup_value (m : list (string * string)) (k : string) :
  lookup m k = "" \/ In (lookup m k) (map snd m).
Proof.
  induction m as [|[k' v] m IH]; cbn [lookup map snd].
  - now left.
  - destruct (k' =? k).
    + right. now left.
    + destruct IH as [IH|IH]; [now left | right; now right].
Qed.

(** No value of the table is empty, and none is the default term. *)
Lemma table_values :
  Forall (fun v => v <> "" /\ v <> "Document") (map snd csl.CMToCSLMappings).
Proof. cbn. repeat constructor; discriminate. Qed.

Lemma lookup_table (k : string) :
  lookup csl.CMToCSLMappings k = "" \/
  (lookup csl.CMToCSLMappings k <> "" /\
   lookup csl.CMToCSLMappings k <> "Document" /\
   In (lookup csl.CMToCSLMappings k) (map snd csl.CMToCSLMappings)).
Proof.
  destruct (lookup_value csl.CMToCSLMappings k) as [H|H]; [now left|].
  right. pose proof table_values as T. rewrite Forall_forall in T.
  destruct (T _ H) as [T1 T2]. now repeat split.
Qed.

(** ** Loops, as functions of what they keep *)

Lemma concat_empty_filter (l : list string) :
  String.concat "" (filter (fun s => negb (s =? "")) l) = String.concat "" l.
Proof.
  induction l as [|x l IH]; [reflexivity|].
  cbn [filter]. destruct (String.eqb_spec x "") as [->|N]; cbn [negb].
  - now rewrite concat_empty_cons, IH.
  - now rewrite !concat_empty_cons, IH.
Qed.

(** The slice the loop over the contributors leaves: the one it started
    with when no contributor is an author, and else a slice that is not
    [nil]. *)
Lemma author_loop_slice (l : list Contributor.t) (author : Author.t)
    (authors : slice Author.t) :
  snd (range l csl.author_step (author, authors)) =
  match map emitted (filter is_author l) with
  | [] => authors
  | a :: rest => Some (elems authors ++ a :: rest)%list
  end.
Proof.
  unfold range. revert author authors.
  induction l as [|c l IH]; intros author authors; [reflexivity|].
  cbn [fold_left filter]. unfold csl.author_step at 2. fold (is_author c).
  destruct (is_author c) eqn:E.
  - rewrite IH. cbn [map]. rewrite elems_append.
    replace (if negb (Contributor.FamilyName c =? "")
             then Author.mk (Contributor.GivenName c)
                    (Contributor.FamilyName c) ""
             else Author.mk "" "" (Contributor.Name c))
      with (emitted c)
      by (unfold emitted; now destruct (Contributor.FamilyName c =? "")).
    destruct (map emitted (filter is_author l)) as [|a rest].
    + destruct authors; reflexivity.
    + now rewrite <- app_assoc.
  - apply IH.
Qed.

Section Further.

Variable ValidateDOI : string -> string * bool.
Variable GetDateParts : string -> dateparts.
Variable Pages : Container.t -> string.
Variable JSONSchemaErrors :
  slice Byte.byte -> string -> gojsonschema.Result.

Local Abbreviation Convert := (csl.Convert ValidateDOI GetDateParts Pages).
Local Abbreviation Write :=
  (csl.Write ValidateDOI GetDateParts Pages JSONSchemaErrors).
Local Abbreviation WriteList :=
  (csl.WriteList ValidateDOI GetDateParts Pages JSONSchemaErrors).
Local Abbreviation converted :=
  (csl.converted ValidateDOI GetDateParts Pages).

(** The authors [Convert] leaves in the record. *)
Lemma Convert_author_slice (contributors : list Contributor.t) :
  (if (0 <? length contributors)%nat
   then snd (range contributors csl.author_step (Author.zero, None))
   else None) =
  match map emitted (filter is_author contributors) with
  | [] => None
  | a :: rest => Some (a :: rest)
  end.
Proof.
  destruct contributors as [|c l]; [reflexivity|].
  cbn [length Nat.ltb Nat.leb]. now rewrite author_loop_slice.
Qed.

(** The keyword [Convert] leaves in the record. *)
Lemma Convert_keyword_string (subjects : list Subject.t) :
  (if (0 <? length subjects)%nat
   then range subjects csl.keyword_step ""
   else "") =
  String.concat "" (map Subject.Subject subjects).
Proof.
  destruct subjects as [|s l]; [reflexivity|].
  cbn [length Nat.ltb Nat.leb].
  now rewrite keyword_loop, concat_empty_filter.
Qed.

(** Runs [Convert data] to the record it returns, with its loops as
    functions of what they keep. *)
Ltac run data :=
  unfold csl.Convert;
  destruct (ValidateDOI (Data.ID data)) as [doi ok] eqn:Hdoi;
  rewrite !guarded_first, Convert_author_slice, Convert_keyword_string;
  cbn [bind ret app];
  eexists; (split; [reflexivity|]);
  cbn [CSL.ID CSL.Type_ CSL.Abstract CSL.Accessed CSL.Author
       CSL.ContainerTitle CSL.DOI CSL.ISSN CSL.Issue CSL.Issued
       CSL.Keyword CSL.Language CSL.License CSL.Page CSL.Publisher
       CSL.Submitted CSL.Title CSL.URL CSL.Version CSL.Volume fst snd].

(** X4: the type of a converted record is never empty: it is the default
    term [Document] or one of the terms of the table. *)
Theorem Convert_type_vocabulary (data : Data.t) :
  exists c,
    Convert data = Returns [] (c, None) /\
    CSL.Type_ c <> "" /\
    (CSL.Type_ c = "Document" \/
     In (CSL.Type_ c) (map snd csl.CMToCSLMappings)).
Proof.
  run data.
  destruct ((Data.Type_ data =? "Software") && negb (Data.Version data =? "")).
  - split; [discriminate|]. right. cbn. tauto.
  - destruct (lookup_table (Data.Type_ data)) as [H|[Hne [_ Hin]]].
    + rewrite H. cbn. split; [discriminate | now left].
    + apply String.eqb_neq in Hne. rewrite Hne.
      apply String.eqb_neq in Hne. now split; [|right].
Qed.

(** X5: the type of a converted record is the default term [Document]
    exactly when the type of the source has no entry in the table: no entry
    of the table and no override gives this term. *)
Theorem Convert_type_default (data : Data.t) :
  exists c,
    Convert data = Returns [] (c, None) /\
    (CSL.Type_ c = "Document" <->
     lookup csl.CMToCSLMappings (Data.Type_ data) = "").
Proof.
  run data.
  destruct (lookup_table (Data.Type_ data)) as [H|[Hne [Hdoc _]]].
  - rewrite H.
    destruct (String.eqb_spec (Data.Type_ data) "Software") as [E|N].
    + rewrite E in H. discriminate H.
    + cbn. tauto.
  - destruct ((Data.Type_ data =? "Software")
              && negb (Data.Version data =? "")).
    + split; [discriminate | contradiction].
    + pose proof Hne as Hne'. apply String.eqb_neq in Hne'. rewrite Hne'.
      split; intro; contradiction.
Qed.

(** ** Members that are never, or not always, written *)

Lemma ISSN_key (c : CSL.t) : In "ISSN" (keys c) -> CSL.ISSN c <> "".
Proof.
  intro H. split_keys H; try (other_key H).
  - simpl in H. destruct H as [H|[H|[]]]; discriminate H.
  - now apply key_of_omit_string in H.
Qed.

Lemma license_key (c : CSL.t) : In "license" (keys c) -> CSL.License c <> "".
Proof.
  intro H. split_keys H; try (other_key H).
  - simpl in H. destruct H as [H|[H|[]]]; discriminate H.
  - now apply key_of_omit_string in H.
Qed.

Lemma author_key (c : CSL.t) :
  In "author" (keys c) <-> exists a l, CSL.Author c = Some (a :: l).
Proof.
  split.
  - intro H. split_keys H; try (other_key H).
    + simpl in H. destruct H as [H|[H|[]]]; discriminate H.
    + now apply key_of_omit_authors in H.
  - intros [a [l H]]. unfold keys, json.members. rewrite !map_app.
    do 3 (apply in_or_app; right). apply in_or_app; left.
    rewrite H. now left.
Qed.

(** X6: [Convert] never sets [ISSN] or [License]: both are empty in every
    converted record, and the encoded record has neither member. *)
Theorem Convert_leaves_ISSN_License (data : Data.t) :
  exists c,
    Convert data = Returns [] (c, None) /\
    CSL.ISSN c = "" /\ CSL.License c = "" /\
    ~ In "ISSN" (keys c) /\ ~ In "license" (keys c).
Proof.
  run data. repeat split.
  - intro H. now apply ISSN_key in H.
  - intro H. now apply license_key in H.
Qed.

(** X7: the authors of a converted record are [nil] when no contributor
    has the role [Author], and never an empty slice; the encoded record has
    the member [author] exactly when some contributor has this role. *)
Theorem Convert_author_member (data : Data.t) :
  exists c,
    Convert data = Returns [] (c, None) /\
    (CSL.Author c = None <->
     forall x, In x (Data.Contributors data) -> is_author x = false) /\
    CSL.Author c <> Some [] /\
    (In "author" (keys c) <->
     exists x, In x (Data.Contributors data) /\ is_author x = true).
Proof.
  run data.
  destruct (filter is_author (Data.Contributors data)) as [|x l] eqn:F;
    cbn [map].
  - assert (Hnone : forall x, In x (Data.Contributors data) ->
                              is_author x = false).
    { intros x Hx. destruct (is_author x) eqn:E; [|reflexivity].
      assert (In x (filter is_author (Data.Contributors data)))
        by (apply filter_In; now split).
      rewrite F in H. destruct H. }
    split; [tauto|]. split; [discriminate|]. split.
    + intro H. apply author_key in H. destruct H as [a [l H]]. discriminate H.
    + intros [x [Hx E]]. rewrite (Hnone x Hx) in E. discriminate E.
  - assert (Hx : In x (Data.Contributors data) /\ is_author x = true).
    { apply filter_In. rewrite F. now left. }
    split; [|split; [discriminate|split]].
    + split; [discriminate|]. intro H. destruct Hx as [Hx E].
      rewrite (H x Hx) in E. discriminate E.
    + intros _. now exists x.
    + intros _. apply author_key. cbn [CSL.Author]. eauto.
Qed.

(** ** What the converter looks at *)

(** X8: [Convert] returns the same for two records that differ only in
    what it does not look at: titles and descriptions after the first,
    contributors without the role [Author], empty subjects and the places
    where one subject ends and the next begins. *)
Theorem Convert_looks_at (d d' : Data.t) :
  same_for_Convert d d' -> Convert d = Convert d'.
Proof.
  intros (Hid & Htype & Hcontainer & Hauthors & Hdate & Hdescriptions &
          Hlanguage & Hpublisher & Hsubjects & Htitles & Hurl & Hversion).
  assert (Ht : match Data.Titles d with
               | [] => "" | x :: _ => Title.Title x end =
               match Data.Titles d' with
               | [] => "" | x :: _ => Title.Title x end).
  { destruct (Data.Titles d), (Data.Titles d'); cbn in Htitles;
      congruence. }
  assert (Hd : match Data.Descriptions d with
               | [] => "" | x :: _ => Description.Description x end =
               match Data.Descriptions d' with
               | [] => "" | x :: _ => Description.Description x end).
  { destruct (Data.Descriptions d), (Data.Descriptions d');
      cbn in Hdescriptions; congruence. }
  unfold csl.Convert.
  rewrite !guarded_first, !Convert_author_slice, !Convert_keyword_string.
  now rewrite Hid, Htype, Hcontainer, Hauthors, Hdate, Hlanguage,
    Hpublisher, Hsubjects, Hurl, Hversion, Ht, Hd.
Qed.

(** ** What the gate hands out *)

(** X9: the bytes [Write] returns are the encoding of the converted
    record, and the validator has found nothing wrong with exactly these
    bytes under the schema [csl-data]. *)
Theorem Write_validated (data : Data.t) (output : list Byte.byte)
    (errors : slice gojsonschema.ResultError) :
  Write data = Returns [] (Some output, errors) ->
  converted data = Returns [] (Some output) /\
  gojsonschema.Valid (JSONSchemaErrors (Some output) "csl-data") = true /\
  errors = None.
Proof.
  destruct (Convert_returns ValidateDOI GetDateParts Pages data) as [c Hc].
  unfold csl.Write, csl.converted. rewrite Hc. unfold json.Marshal.
  cbn [bind csl.report ret app fst].
  destruct (gojsonschema.Valid _) eqn:V; cbn [negb bind ret app]; intro H.
  - injection H as <- <-. now rewrite V.
  - discriminate H.
Qed.

(** X10: the errors [Write] returns with [nil] bytes are the errors the
    validator has found in the encoding of the converted record, all of
    them, in its order. *)
Theorem Write_errors (data : Data.t)
    (errors : slice gojsonschema.ResultError) :
  Write data = Returns [] (None, errors) ->
  exists document,
    converted data = Returns [] (Some document) /\
    gojsonschema.Valid (JSONSchemaErrors (Some document) "csl-data") = false /\
    errors = gojsonschema.Errors (JSONSchemaErrors (Some document) "csl-data").
Proof.
  destruct (Convert_returns ValidateDOI GetDateParts Pages data) as [c Hc].
  unfold csl.Write, csl.converted. rewrite Hc. unfold json.Marshal.
  cbn [bind csl.report ret app fst].
  destruct (gojsonschema.Valid _) eqn:V; cbn [negb bind ret app]; intro H.
  - discriminate H.
  - injection H as <-. eexists. split; [reflexivity|]. now split.
Qed.

(** An array is written as its items between brackets, with commas. *)
Lemma render_Arr (items : list json.value) :
  json.render (json.Arr items) =
  "[" ++ String.concat "," (map json.render items) ++ "]".
Proof.
  cbn [json.render]. do 2 f_equal.
  induction items as [|x l IH]; [reflexivity|].
  rewrite IH. destruct l as [|y l]; cbn [map String.concat].
  - now rewrite append_empty_r.
  - reflexivity.
Qed.

(** X11: the document [WriteList] submits for a list that is not empty is
    the documents of its records, as [Write] encodes each of them, in the
    order of the list, separated by commas and between brackets. *)
Theorem WriteList_document (list : list Data.t) :
  list <> [] ->
  exists documents,
    Forall2
      (fun data document =>
         converted data = Returns [] (Some (list_byte_of_string document)))
      list documents /\
    let document :=
      Some (list_byte_of_string
              ("[" ++ String.concat "," documents ++ "]")) in
    WriteList list =
    Returns []
      (if negb (gojsonschema.Valid (JSONSchemaErrors document "csl-data"))
       then (None, gojsonschema.Errors (JSONSchemaErrors document "csl-data"))
       else (document, None)).
Proof.
  intro Hlist.
  destruct (convert_each_in_order ValidateDOI GetDateParts Pages list None)
    as [cs [l [H [Helems Hall]]]].
  cbn [elems app] in Helems.
  assert (Hcs : cs = Some l).
  { destruct cs as [l'|]; [cbn in Helems; now subst|].
    cbn in Helems. subst l. inversion Hall. subst. contradiction. }
  subst cs.
  exists (map (fun c => json.render (json.of_CSL c)) l). split.
  - clear H Hlist Helems. induction Hall as [|data c list l Hc _ IH].
    + constructor.
    + constructor; [|exact IH].
      unfold csl.converted. rewrite Hc. reflexivity.
  - cbv zeta. unfold csl.WriteList. rewrite H. unfold json.MarshalList.
    cbn [bind csl.report ret app]. unfold json.encode, json.of_slice.
    rewrite render_Arr, map_map.
    now destruct (negb _).
Qed.

(** ** Reading and converting *)

(** X12: what [Read] returns is converted to a record of type [Document]
    with the identifier of the input and no title, whatever the title of
    the input: the encoded record has the members [id] and [type] and at
    most [DOI] and [page] besides. *)
Theorem Read_Convert (c : content.t) :
  exists data r,
    csl.Read c = Returns [] (data, None) /\
    Convert data = Returns [] (r, None) /\
    CSL.ID r = content.ID c /\
    CSL.Type_ r = "Document" /\
    CSL.Title r = "" /\
    forall k, In k (keys r) -> In k ["id"; "type"; "DOI"; "page"].
Proof.
  set (data := Data.mk (content.ID c) "" Container.zero [] Date.zero []
                 "" Publisher.zero [] [] "" "").
  assert (exists r,
    Convert data = Returns [] (r, None) /\
    (CSL.ID r = content.ID c /\ CSL.Type_ r = "Document" /\
     CSL.Title r = "" /\
     forall k, In k (keys r) -> In k ["id"; "type"; "DOI"; "page"]))
    as [r [Hr Hrest]].
  { run data.
    cbn. repeat split. intros k [H|[H|H]]; [now left | right; now left |].
    rewrite app_nil_r, map_app in H. apply in_app_or in H.
    destruct H as [H|H]; apply key_of_omit_string in H; destruct H as [-> _];
      cbn; tauto. }
  exists data, r. split; [reflexivity|]. split; [exact Hr | exact Hrest].
Qed.

(** ** Strings that are copied through *)

Lemma omit_string_member (key s : string) :
  s <> "" -> In (key, json.Str s) (json.omit_string key s).
Proof.
  intro H. unfold json.omit_string.
  apply String.eqb_neq in H. rewrite H. now left.
Qed.





(** X19: every encoded record begins with the members [id] and [type],
    in this order and also when the identifier is empty, and has no second
    member of either name. *)
Theorem Convert_id_type (data : Data.t) :
  exists c rest,
    Convert data = Returns [] (c, None) /\
    json.members c =
      ("id", json.Str (Data.ID data)) :: ("type", json.Str (CSL.Type_ c))
      :: rest /\
    ~ In "id" (map fst rest) /\ ~ In "type" (map fst rest).
Proof.
  assert (exists c, Convert data = Returns [] (c, None) /\
                    CSL.ID c = Data.ID data) as [c [Hc Hid]]
    by (run data; reflexivity).
  exists c. eexists. split; [exact Hc|]. split.
  - unfold json.members. rewrite Hid. cbn [app]. reflexivity.
  - split; intro H; repeat rewrite map_app in H;
      repeat (apply in_app_or in H; destruct H as [H|H]); other_key H.
Qed.

End Further.

(** * Properties of the commands *)

Lemma bind_ret (A B : Type) (a : A) (k : A -> outcome B) :
  bind (ret a) k = k a.
Proof. unfold bind, ret. now destruct (k a). Qed.

Lemma GetString_Set_other (f : pflag.FlagSet) (name other value : string) :
  name <> other ->
  pflag.GetString (fst (pflag.Set_ f other value)) name =
  pflag.GetString f name.
Proof.
  intro Hne. unfold pflag.GetString, pflag.Lookup.
  induction f as [|flag rest IH]; [reflexivity|].
  cbn [pflag.Set_ find].
  destruct (String.eqb_spec (pflag.Name flag) other) as [E|N].
  - cbn [fst find pflag.Name].
    destruct (String.eqb_spec (pflag.Name flag) name) as [E'|N'].
    + congruence.
    + reflexivity.
  - destruct (pflag.Set_ rest other value) as [rest' err] eqn:S.
    cbn [fst find] in *.
    destruct (pflag.Name flag =? name); [reflexivity | exact IH].
Qed.

Section Commands.

Variable Data : Type.
Variable zero : Data.
Variable FetchCrossref : string -> Data * error.
Variable FetchDatacite : string -> Data * error.
Variable MarshalIndent : Data -> slice Byte.byte * error.
Variable WriteCommonmeta :
  Data -> slice Byte.byte * slice gojsonschema.ResultError.
Variable Indent : slice Byte.byte -> string.
Variable Sprint : list gojsonschema.ResultError -> string.

Local Abbreviation fetch := (cmd.fetch zero FetchCrossref FetchDatacite).
Local Abbreviation convertCmd_Run :=
  (cmd.convertCmd_Run zero FetchCrossref FetchDatacite MarshalIndent).
Local Abbreviation rootCmd_Run :=
  (cmd.rootCmd_Run zero FetchCrossref FetchDatacite WriteCommonmeta Indent
     Sprint).

(** With an argument, a command fetches the record for the first argument
    from the format of the flag [from], and prints. *)
Lemma convertCmd_Run_cons (flags : pflag.FlagSet) (input : string)
    (rest : list string) :
  convertCmd_Run flags (input :: rest) =
  convertCmd_prints MarshalIndent
    (fetch (fst (pflag.GetString flags "from")) input).
Proof.
  unfold cmd.convertCmd_Run, convertCmd_prints.
  cbn [length Nat.eqb index nth_error]. rewrite bind_ret.
  destruct (pflag.GetString flags "from") as [from e]. cbn [fst].
  destruct (fetch from input) as [data err].
  destruct err; destruct (MarshalIndent data) as [output [msg|]];
    reflexivity.
Qed.

Lemma rootCmd_Run_cons (flags : pflag.FlagSet) (input : string)
    (rest : list string) :
  rootCmd_Run flags (input :: rest) =
  rootCmd_prints WriteCommonmeta Indent Sprint
    (fetch (fst (pflag.GetString flags "from")) input).
Proof.
  unfold cmd.rootCmd_Run, rootCmd_prints.
  cbn [length Nat.eqb index nth_error]. rewrite bind_ret.
  destruct (pflag.GetString flags "from") as [from e]. cbn [fst].
  destruct (fetch from input) as [data err].
  destruct err; destruct (WriteCommonmeta data) as [output [errors|]];
    reflexivity.
Qed.

Lemma prints_return (fetched : Data * error) :
  (exists out, convertCmd_prints MarshalIndent fetched = Returns out tt) /\
  (exists out,
     rootCmd_prints WriteCommonmeta Indent Sprint fetched = Returns out tt).
Proof.
  destruct fetched as [data err]. unfold convertCmd_prints, rootCmd_prints.
  split.
  - destruct err; destruct (MarshalIndent data) as [output [msg|]];
      eexists; reflexivity.
  - destruct err; destruct (WriteCommonmeta data) as [output [errors|]];
      eexists; reflexivity.
Qed.

(** X13: without arguments both commands print the request for a DOI and
    nothing else; with arguments they use the first and ignore the others,
    and return without a panic. *)
Theorem Run_arguments (flags : pflag.FlagSet) :
  convertCmd_Run flags [] = Returns ["Please provide an input DOI"] tt /\
  rootCmd_Run flags [] = Returns ["Please provide an input DOI"] tt /\
  forall input rest,
    convertCmd_Run flags (input :: rest) = convertCmd_Run flags [input] /\
    rootCmd_Run flags (input :: rest) = rootCmd_Run flags [input] /\
    (exists out, convertCmd_Run flags (input :: rest) = Returns out tt) /\
    (exists out, rootCmd_Run flags (input :: rest) = Returns out tt).
Proof.
  split; [reflexivity|]. split; [reflexivity|].
  intros input rest.
  rewrite !convertCmd_Run_cons, !rootCmd_Run_cons.
  split; [reflexivity|]. split; [reflexivity|]. apply prints_return.
Qed.

(** X14: the flag [to] has no effect: giving it a value changes nothing in
    what the commands do. *)
Theorem Run_ignores_to (flags : pflag.FlagSet) (value : string)
    (args : list string) :
  convertCmd_Run (fst (pflag.Set_ flags "to" value)) args =
    convertCmd_Run flags args /\
  rootCmd_Run (fst (pflag.Set_ flags "to" value)) args =
    rootCmd_Run flags args.
Proof.
  destruct args as [|input rest]; [split; reflexivity|].
  rewrite !convertCmd_Run_cons, !rootCmd_Run_cons.
  rewrite GetString_Set_other by discriminate. now split.
Qed.

(** X15: for a format other than [crossref] and [datacite], also when the
    flag [from] is not defined, the commands fetch nothing and say nothing
    about the format: they write the zero record, whatever the argument. *)
Theorem Run_other_format (flags : pflag.FlagSet) (input : string)
    (rest : list string) :
  fst (pflag.GetString flags "from") <> "crossref" ->
  fst (pflag.GetString flags "from") <> "datacite" ->
  convertCmd_Run flags (input :: rest) =
    (let '(output, err) := MarshalIndent zero in
     cmd.report err ;;; Println (cmd.string_of output)) /\
  rootCmd_Run flags (input :: rest) =
    (let '(output, jsErr) := WriteCommonmeta zero in
     Println (Indent output) ;;;
     match jsErr with
     | Some errors => Println (Sprint errors)
     | None => ret tt
     end).
Proof.
  intros Hc Hd. apply String.eqb_neq in Hc, Hd.
  rewrite convertCmd_Run_cons, rootCmd_Run_cons.
  unfold cmd.fetch. rewrite Hc, Hd.
  unfold convertCmd_prints, rootCmd_prints. split.
  - destruct (MarshalIndent zero) as [output [msg|]]; reflexivity.
  - destruct (WriteCommonmeta zero) as [output [errors|]]; reflexivity.
Qed.

(** X16: an error of the fetcher does not end a command: the error is
    printed first, and the record the fetcher returned with it is written
    all the same. *)
Theorem Run_fetch_error (flags : pflag.FlagSet) (input : string)
    (rest : list string) (data : Data) (msg : string) :
  fetch (fst (pflag.GetString flags "from")) input = (data, Some msg) ->
  (exists lines,
     convertCmd_Run flags (input :: rest) =
     Returns (msg :: lines ++ [cmd.string_of (fst (MarshalIndent data))]) tt) /\
  (exists lines,
     rootCmd_Run flags (input :: rest) =
     Returns (msg :: Indent (fst (WriteCommonmeta data)) :: lines) tt).
Proof.
  intro H. rewrite convertCmd_Run_cons, rootCmd_Run_cons, H.
  unfold convertCmd_prints, rootCmd_prints. split.
  - destruct (MarshalIndent data) as [output [e|]]; cbn.
    + now exists [e].
    + now exists [].
  - destruct (WriteCommonmeta data) as [output [errors|]]; cbn.
    + now exists [Sprint errors].
    + now exists [].
Qed.

(** X17: with the flag [from] as [init] defines it, the commands fetch
    from Crossref. *)
Theorem Run_default_format (persistent flags : pflag.FlagSet)
    (input : string) (rest : list string) :
  cmd.init [] = Returns [] persistent ->
  pflag.Lookup flags "from" = pflag.Lookup persistent "from" ->
  convertCmd_Run flags (input :: rest) =
    convertCmd_prints MarshalIndent (FetchCrossref input) /\
  rootCmd_Run flags (input :: rest) =
    rootCmd_prints WriteCommonmeta Indent Sprint (FetchCrossref input).
Proof.
  intros Hinit Hfrom. cbn in Hinit. injection Hinit as <-.
  rewrite convertCmd_Run_cons, rootCmd_Run_cons.
  unfold pflag.GetString. rewrite Hfrom. cbn. now split.
Qed.

End Commands.

(** ** The further theorems at sample records *)

(** The journal article, with and without a subtitle, an editor and an
    empty subject. *)
Lemma Convert_looks_at_witness :
  csl.Convert sample.ValidateDOI sample.GetDateParts sample.Pages
    sample.article =
  csl.Convert sample.ValidateDOI sample.GetDateParts sample.Pages
    sample.article_more.
Proof.
  apply Convert_looks_at. unfold same_for_Convert.
  repeat split; reflexivity.
Defined.

(** The bare record, under an oracle that accepts it. *)
Lemma Write_validated_witness :
  exists output,
    csl.Write sample.ValidateDOI sample.GetDateParts sample.Pages
      sample.accept sample.bare = Returns [] (Some output, None) /\
    csl.converted sample.ValidateDOI sample.GetDateParts sample.Pages
      sample.bare = Returns [] (Some output) /\
    gojsonschema.Valid (sample.accept (Some output) "csl-data") = true.
Proof.
  eexists.
  assert (H : csl.Write sample.ValidateDOI sample.GetDateParts sample.Pages
                sample.accept sample.bare =
              Returns [] (Some _, None)) by (vm_compute; reflexivity).
  split; [exact H|].
  destruct (@Write_validated _ _ _ _ _ _ _ H) as [H1 [H2 _]]. now split.
Defined.

(** The bare record, under an oracle that wants an array. *)
Lemma Write_errors_witness :
  exists document,
    csl.Write sample.ValidateDOI sample.GetDateParts sample.Pages
      sample.JSONSchemaErrors sample.bare =
    Returns []
      (None,
       gojsonschema.Errors (sample.JSONSchemaErrors (Some document) "csl-data"))
    /\
    csl.converted sample.ValidateDOI sample.GetDateParts sample.Pages
      sample.bare = Returns [] (Some document).
Proof.
  assert (H : csl.Write sample.ValidateDOI sample.GetDateParts sample.Pages
                sample.JSONSchemaErrors sample.bare =
              Returns []
                (None,
                 Some [gojsonschema.mkError "(root)"
                         "Invalid type. Expected: array"]))
    by (vm_compute; reflexivity).
  destruct (@Write_errors _ _ _ _ _ _ H) as [document [H1 [_ H3]]].
  exists document. rewrite <- H3. now split.
Defined.

(** The list of the journal article and the bare record. *)
Lemma WriteList_document_witness :
  exists documents,
    Forall2
      (fun data document =>
         csl.converted sample.ValidateDOI sample.GetDateParts sample.Pages
           data = Returns [] (Some (list_byte_of_string document)))
      [sample.article; sample.bare] documents /\
    csl.WriteList sample.ValidateDOI sample.GetDateParts sample.Pages
      sample.JSONSchemaErrors [sample.article; sample.bare] =
    Returns []
      (Some (list_byte_of_string
               ("[" ++ String.concat "," documents ++ "]")), None).
Proof.
  assert (Hlist : [sample.article; sample.bare] <> []) by discriminate.
  destruct (@WriteList_document sample.ValidateDOI sample.GetDateParts
              sample.Pages sample.JSONSchemaErrors
              [sample.article; sample.bare] Hlist) as [documents [Hall H]].
  exists documents. split; [exact Hall|].
  cbv zeta in H. rewrite H. clear H.
  destruct documents as [|d documents]; [inversion Hall|]. reflexivity.
Defined.

(** The format [bibtex], which has no fetcher. *)
Lemma Run_other_format_witness :
  cmd.convertCmd_Run Data.zero sample.Fetch sample.Fetch
    sample.MarshalIndent sample.flags_bibtex ["10.5555/12345678"] =
  Returns [""] tt /\
  cmd.rootCmd_Run Data.zero sample.Fetch sample.Fetch
    sample.WriteCommonmeta sample.Indent sample.Sprint
    sample.flags_bibtex ["10.5555/12345678"] =
  Returns ["="; "id: id is required"] tt.
Proof.
  assert (Hc : fst (pflag.GetString sample.flags_bibtex "from") <> "crossref")
    by discriminate.
  assert (Hd : fst (pflag.GetString sample.flags_bibtex "from") <> "datacite")
    by discriminate.
  destruct (@Run_other_format _ Data.zero sample.Fetch sample.Fetch
              sample.MarshalIndent sample.WriteCommonmeta sample.Indent
              sample.Sprint sample.flags_bibtex "10.5555/12345678" [] Hc Hd)
    as [H1 H2].
  rewrite H1, H2. split; reflexivity.
Defined.

(** An identifier the registry does not know. *)
Lemma Run_fetch_error_witness :
  (exists lines,
     cmd.convertCmd_Run Data.zero sample.Fetch sample.Fetch
       sample.MarshalIndent sample.flags ["urn:x"] =
     Returns ("not found: urn:x" :: lines ++ [""]) tt) /\
  (exists lines,
     cmd.rootCmd_Run Data.zero sample.Fetch sample.Fetch
       sample.WriteCommonmeta sample.Indent sample.Sprint
       sample.flags ["urn:x"] =
     Returns ("not found: urn:x" :: "=" :: lines) tt).
Proof.
  apply (@Run_fetch_error _ Data.zero sample.Fetch sample.Fetch
           sample.MarshalIndent sample.WriteCommonmeta sample.Indent
           sample.Sprint sample.flags "urn:x" [] Data.zero).
  reflexivity.
Defined.

(** The flags as [init] leaves them. *)
Lemma Run_default_format_witness :
  cmd.init [] = Returns [] sample.flags /\
  cmd.convertCmd_Run Data.zero sample.Fetch sample.Fetch
    sample.MarshalIndent sample.flags ["10.5555/12345678"] =
  convertCmd_prints sample.MarshalIndent (sample.Fetch "10.5555/12345678") /\
  cmd.rootCmd_Run Data.zero sample.Fetch sample.Fetch
    sample.WriteCommonmeta sample.Indent sample.Sprint
    sample.flags ["10.5555/12345678"] =
  rootCmd_prints sample.WriteCommonmeta sample.Indent sample.Sprint
    (sample.Fetch "10.5555/12345678").
Proof.
  split; [reflexivity|].
  apply (@Run_default_format _ Data.zero sample.Fetch sample.Fetch
           sample.MarshalIndent sample.WriteCommonmeta sample.Indent
           sample.Sprint sample.flags sample.flags); reflexivity.
Defined.

(** ** The way back through [Read] *)

(** C8 fails at the journal article.  Its document has the member [id]
    with the identifier and the member [title] with the title of the
    article, which is what decoding it into a [content] yields.  [Read]
    keeps the first and drops the second, with the type and all the rest,
    so that the record it returns is converted to other bytes than the
    article, whatever the imported packages do. *)
Lemma reconverted_differs :
  exists data decoded,
    data = sample.article /\ decoded = sample.decoded /\
    forall ValidateDOI GetDateParts Pages, exists c once data' twice,
      csl.Convert ValidateDOI GetDateParts Pages data =
      Returns [] (c, None) /\
      In ("id", json.Str (content.ID decoded)) (json.members c) /\
      In ("title", json.Str (content.Title decoded)) (json.members c) /\
      csl.converted ValidateDOI GetDateParts Pages data =
      Returns [] (Some once) /\
      csl.Read decoded = Returns [] (data', None) /\
      Data.Titles data' = [] /\ Data.Type_ data' = "" /\
      csl.converted ValidateDOI GetDateParts Pages data' =
      Returns [] (Some twice) /\
      once <> twice.
Proof.
  exists sample.article, sample.decoded.
  split; [reflexivity|]. split; [reflexivity|].
  intros V G P.
  set (data' := Data.mk "10.5555/12345678" "" Container.zero [] Date.zero
                  [] "" Publisher.zero [] [] "" "").
  assert (Hc : exists c,
    csl.Convert V G P sample.article = Returns [] (c, None) /\
    CSL.ID c = "10.5555/12345678" /\ CSL.Title c = "Example").
  { unfold csl.Convert. rewrite !guarded_first.
    destruct (V (Data.ID sample.article)) as [doi ok].
    eexists. split; [reflexivity|]. now split. }
  destruct Hc as [c [Hc [Hid Htitle]]].
  destruct (converted_returns V G P sample.article) as [once Hfirst].
  destruct (converted_returns V G P data') as [twice Hsecond].
  exists c, once, data', twice.
  split; [exact Hc|]. split.
  { unfold json.members. rewrite Hid. now left. }
  split.
  { assert (H : "Example" <> "") by discriminate.
    apply (omit_string_member "title") in H.
    unfold json.members. rewrite Htitle, !in_app_iff. tauto. }
  split; [exact Hfirst|]. split; [reflexivity|].
  split; [reflexivity|]. split; [reflexivity|]. split; [exact Hsecond|].
  unfold csl.converted, csl.Convert in Hfirst, Hsecond.
  rewrite !guarded_first in Hfirst, Hsecond.
  destruct (V (Data.ID sample.article)) as [doi ok].
  destruct (V (Data.ID data')) as [doi' ok'].
  cbn [bind ret app fst json.Marshal] in Hfirst, Hsecond.
  injection Hfirst as <-. injection Hsecond as <-.
  intro H. apply (f_equal (firstn 40)) in H.
  vm_compute in H. discriminate H.
Qed.

(** C3, as stated, fails at a record whose one author has neither a family
    name nor a name: the author that is emitted has no field set, the given
    name is lost, and the encoded author is an object without members,
    whatever the imported packages do. *)
Lemma Convert_authors_unnamed :
  exists data,
    data = sample.nameless /\
    forall ValidateDOI GetDateParts Pages, exists c,
      csl.Convert ValidateDOI GetDateParts Pages data =
      Returns [] (c, None) /\
      CSL.Author c = Some [Author.zero] /\
      ~ structured Author.zero /\ ~ literal Author.zero /\
      In ("author", json.Arr [json.Obj []]) (json.members c).
Proof.
  exists sample.nameless. split; [reflexivity|].
  intros V G P.
  assert (Hc : exists c,
    csl.Convert V G P sample.nameless = Returns [] (c, None) /\
    CSL.Author c = Some [Author.zero]).
  { unfold csl.Convert. rewrite !guarded_first.
    destruct (V (Data.ID sample.nameless)) as [doi ok].
    eexists. split; reflexivity. }
  destruct Hc as [c [Hc Hauthor]].
  exists c. split; [exact Hc|]. split; [exact Hauthor|].
  split; [unfold structured; cbn; tauto|].
  split; [unfold literal; cbn; tauto|].
  unfold json.members. rewrite Hauthor, !in_app_iff. cbn. tauto.
Qed.
